(** * Repository health score: a shallow embedding of [compute_score.py]

    The script computes six metrics of a repository, each a pair
    [(value, evidence)], and combines the values with fixed weights into
    a score out of 100.  Every collector reads the outside world (the
    environment variables, the working directory, the output of external
    tools, one HTTP request) and most of them catch the exceptions that
    reading raises.

    Modelling choices.
    - A Python [float] is an exact rational [Q]: finite values, no
      rounding, no [inf] or [nan].  Numbers are compared with [==].
    - A Python exception is a value of type [exn]; a computation that can
      raise has type [Exc A]; [try ... except Exception] is a [match].
    - Text is a [string] of code points below 256, as [read()] returns it
      in text mode (decoded, newlines translated).
    - The outside world is a record [World].  The working directory is a
      tree of [node]s; paths are relative to it and separated by [/]
      (absolute paths and [..] are not modelled).  An external tool is
      the result of running it: the text it prints, or the exception that
      [subprocess] raises when it is missing or exits with an error.
    - The parsers of the standard library ([ET.parse], [json.loads],
      [float]) are parameters of the collectors. *)

From Stdlib Require Import ZArith QArith Qround Qabs Qminmax Lqa Lia.
From Stdlib Require Import List String Ascii Bool.
Import ListNotations.

#[local] Set Warnings "-register-all,-notation-for-abbreviation".

Open Scope string_scope.
Open Scope Q_scope.

(** ** Exceptions *)

Record exn : Type := Exn { exn_type : string; exn_msg : string }.

Inductive Exc (A : Type) : Type :=
| Ok (a : A)
| Raise (e : exn).

Arguments Ok {A} a.
Arguments Raise {A} e.

Definition bind {A B : Type} (m : Exc A) (k : A -> Exc B) : Exc B :=
  match m with
  | Ok a => k a
  | Raise e => Raise e
  end.

Notation "x <- m ;; k" := (bind m (fun x => k))
  (at level 61, m at next level, right associativity).

(** [str(e)] *)
Definition str_exn (e : exn) : string := exn_msg e.

(** ** Python values: parsed JSON and the evidence dictionaries *)

Inductive pyval : Type :=
| PNone
| PBool (b : bool)
| PInt (z : Z)
| PFloat (q : Q)
| PStr (s : string)
| PList (l : list pyval)
| PDict (d : list (string * pyval)).

Definition dict : Type := list (string * pyval).

(** A metric is the tuple [(value, evidence)] the collectors return. *)
Definition MetricResult : Type := (Q * dict)%type.

Definition value (r : MetricResult) : Q := fst r.
Definition evidence (r : MetricResult) : dict := snd r.

Fixpoint assoc {V : Type} (k : string) (d : list (string * V)) : option V :=
  match d with
  | [] => None
  | (k', v) :: rest => if String.eqb k k' then Some v else assoc k rest
  end.

Definition type_name (v : pyval) : string :=
  match v with
  | PNone => "NoneType"
  | PBool _ => "bool"
  | PInt _ => "int"
  | PFloat _ => "float"
  | PStr _ => "str"
  | PList _ => "list"
  | PDict _ => "dict"
  end.

Definition AttributeError (v : pyval) (attr : string) : exn :=
  Exn "AttributeError"
      ("'" ++ type_name v ++ "' object has no attribute '" ++ attr ++ "'").

Definition TypeError (msg : string) : exn := Exn "TypeError" msg.

(** [v.get(key, default)]: only a dict has the method. *)
Definition py_get (v : pyval) (key : string) (default : pyval) : Exc pyval :=
  match v with
  | PDict d => Ok (match assoc key d with Some x => x | None => default end)
  | _ => Raise (AttributeError v "get")
  end.

Definition chars (s : string) : list pyval :=
  map (fun c => PStr (String c EmptyString)) (list_ascii_of_string s).

(** [for x in v]: a list gives its items, a dict its keys, a string its
    characters; nothing else is iterable. *)
Definition py_iter (v : pyval) : Exc (list pyval) :=
  match v with
  | PList l => Ok l
  | PDict d => Ok (map (fun kv => PStr (fst kv)) d)
  | PStr s => Ok (chars s)
  | _ => Raise (TypeError ("'" ++ type_name v ++ "' object is not iterable"))
  end.

(** [len(v)] *)
Definition py_len (v : pyval) : Exc nat :=
  match v with
  | PList l => Ok (List.length l)
  | PDict d => Ok (List.length d)
  | PStr s => Ok (String.length s)
  | _ => Raise (TypeError ("object of type '" ++ type_name v ++ "' has no len()"))
  end.

(** Truth value of [v], as [not v] and [if v] test it. *)
Definition truthy (v : pyval) : bool :=
  match v with
  | PNone => false
  | PBool b => b
  | PInt z => negb (Z.eqb z 0)
  | PFloat q => negb (Qeq_bool q 0)
  | PStr s => negb (String.eqb s "")
  | PList l => match l with [] => false | _ => true end
  | PDict d => match d with [] => false | _ => true end
  end.

(** [v == "..."] for a string literal on the right. *)
Definition eq_str (v : pyval) (s : string) : bool :=
  match v with
  | PStr s' => String.eqb s' s
  | _ => false
  end.

(** ** Numbers *)

(** [min(a, b)] and [max(a, b)] keep the first argument unless the second
    is strictly smaller (resp. greater). *)
Definition py_min (a b : Q) : Q := if Qlt_le_dec b a then b else a.
Definition py_max (a b : Q) : Q := if Qlt_le_dec a b then b else a.

(** Nearest integer, ties to the even one. *)
Definition round_half_even (q : Q) : Z :=
  let f := Qfloor q in
  let r := q - inject_Z f in
  match Qcompare r (1 # 2) with
  | Lt => f
  | Gt => (f + 1)%Z
  | Eq => if Z.even f then f else (f + 1)%Z
  end.

(** [round(q, ndigits)] *)
Definition py_round (q : Q) (ndigits : nat) : Q :=
  let s := inject_Z (10 ^ Z.of_nat ndigits) in
  Qred (inject_Z (round_half_even (q * s)) / s).

(** [n / d] on two ints: true division. *)
Definition int_div (n d : nat) : Q :=
  inject_Z (Z.of_nat n) / inject_Z (Z.of_nat d).

(** ** Text *)

Fixpoint is_prefix (p s : string) : bool :=
  match p, s with
  | EmptyString, _ => true
  | String a p', String b s' => Ascii.eqb a b && is_prefix p' s'
  | String _ _, EmptyString => false
  end.

(** [sub in s] *)
Fixpoint contains (sub s : string) : bool :=
  is_prefix sub s ||
  match s with
  | EmptyString => false
  | String _ s' => contains sub s'
  end.

Definition ends_with (suffix s : string) : bool :=
  let n := String.length s in
  let m := String.length suffix in
  Nat.leb m n && String.eqb (substring (n - m) m s) suffix.

Definition lower_ascii (c : ascii) : ascii :=
  let n := nat_of_ascii c in
  if (Nat.leb 65 n && Nat.leb n 90)
     || (Nat.leb 192 n && Nat.leb n 222 && negb (Nat.eqb n 215))
  then ascii_of_nat (n + 32)
  else c.

(** [s.lower()] *)
Fixpoint lower (s : string) : string :=
  match s with
  | EmptyString => EmptyString
  | String c s' => String (lower_ascii c) (lower s')
  end.

(** [f.read(n)]: the first [n] characters. *)
Definition read_n (n : nat) (s : string) : string := substring 0 n s.

Definition is_space (c : ascii) : bool :=
  let n := nat_of_ascii c in
  (Nat.leb 9 n && Nat.leb n 13) || (Nat.leb 28 n && Nat.leb n 32)
  || Nat.eqb n 133 || Nat.eqb n 160.

(** Truth value of [l.strip()]. *)
Definition strip_nonempty (l : string) : bool :=
  existsb (fun c => negb (is_space c)) (list_ascii_of_string l).

Definition is_linebreak (c : ascii) : bool :=
  let n := nat_of_ascii c in
  (Nat.leb 10 n && Nat.leb n 13) || (Nat.leb 28 n && Nat.leb n 30)
  || Nat.eqb n 133.

(** [s.splitlines()]: [cur] is the line being read, reversed. *)
Fixpoint splitlines_from (cur : list ascii) (s : string) : list string :=
  match s with
  | EmptyString =>
      match cur with
      | [] => []
      | _ => [string_of_list_ascii (rev cur)]
      end
  | String c s' =>
      if is_linebreak c then
        string_of_list_ascii (rev cur) ::
        match s' with
        | String c' s'' =>
            if Nat.eqb (nat_of_ascii c) 13 && Nat.eqb (nat_of_ascii c') 10
            then splitlines_from [] s''
            else splitlines_from [] s'
        | EmptyString => []
        end
      else splitlines_from (c :: cur) s'
  end.

Definition splitlines (s : string) : list string := splitlines_from [] s.

(** Number of lines a text file yields when iterated. *)
Fixpoint count_lines_from (pending : bool) (s : string) : nat :=
  match s with
  | EmptyString => if pending then 1%nat else 0%nat
  | String c s' =>
      if Nat.eqb (nat_of_ascii c) 10
      then S (count_lines_from false s')
      else count_lines_from true s'
  end.

Definition count_lines (s : string) : nat := count_lines_from false s.

(** [s.split(sep)] for a one-character separator. *)
Fixpoint str_split_from (sep : ascii) (cur : list ascii) (s : string) : list string :=
  match s with
  | EmptyString => [string_of_list_ascii (rev cur)]
  | String c s' =>
      if Ascii.eqb c sep
      then string_of_list_ascii (rev cur) :: str_split_from sep [] s'
      else str_split_from sep (c :: cur) s'
  end.

Definition str_split (sep : ascii) (s : string) : list string := str_split_from sep [] s.

(** ** The working directory *)

(** A file that exists but cannot be opened for reading has no text. *)
Inductive node : Type :=
| File (text : option string)
| Dir (entries : list (string * node)).

Definition components (p : string) : list string :=
  filter (fun c => negb (String.eqb c "" || String.eqb c ".")) (str_split "/" p).

Fixpoint lookup_node (n : node) (cs : list string) : option node :=
  match cs with
  | [] => Some n
  | c :: rest =>
      match n with
      | Dir es =>
          match assoc c es with
          | Some child => lookup_node child rest
          | None => None
          end
      | File _ => None
      end
  end.

Definition hidden (name : string) : bool := is_prefix "." name.

Definition join (dir name : string) : string :=
  if String.eqb dir "" then name else dir ++ "/" ++ name.

(** [glob.glob("**/*.py", recursive=True)] below the directory [n], whose
    path is [dir]: hidden names are neither matched nor entered. *)
Fixpoint glob_py (dir : string) (n : node) {struct n} : list string :=
  match n with
  | File _ => []
  | Dir es =>
      (fix go (es : list (string * node)) : list string :=
         match es with
         | [] => []
         | (name, child) :: rest =>
             if hidden name then go rest
             else
               ((if ends_with ".py" name then [join dir name] else [])
                ++ glob_py (join dir name) child ++ go rest)%list
         end) es
  end.

(** [glob.glob("test_*")] *)
Definition glob_test_files (es : list (string * node)) : list string :=
  map fst (filter (fun e => is_prefix "test_" (fst e)) es).

(** [glob.glob("*/tests/*")] *)
Definition glob_tests_dirs (es : list (string * node)) : list string :=
  flat_map
    (fun e =>
       match snd e with
       | Dir sub =>
           if hidden (fst e) then []
           else
             match assoc "tests" sub with
             | Some (Dir ts) =>
                 map (fun t => fst e ++ "/tests/" ++ fst t)
                     (filter (fun t => negb (hidden (fst t))) ts)
             | _ => []
             end
       | File _ => []
       end)
    es.

(** [any(l)] on a list of strings. *)
Definition any_str (l : list string) : bool :=
  existsb (fun s => negb (String.eqb s "")) l.

(** ** The outside world *)

Record World : Type := {
  REPO : option string;            (* os.getenv("GITHUB_REPOSITORY") *)
  TOKEN : option string;           (* os.getenv("GITHUB_TOKEN") *)
  COVERAGE_PATH : option string;   (* os.getenv("COVERAGE_PATH") *)
  cwd : list (string * node);      (* entries of the working directory *)
  coverage_run : Exc unit;         (* coverage run -m pytest -q *)
  coverage_xml : Exc string;       (* coverage xml: the text it writes *)
  vulture : Exc string;            (* vulture . --min-confidence 0 *)
  bandit : Exc string;             (* bandit -r . -f json *)
  requests_get : string -> string -> Exc string
                                   (* url, token: body of the response *)
}.

Definition lookup_path (w : World) (p : string) : option node :=
  lookup_node (Dir (cwd w)) (components p).

(** [Path(p).exists()] *)
Definition path_exists (w : World) (p : string) : bool :=
  match lookup_path w p with
  | Some _ => true
  | None => false
  end.

Definition OSError (kind p : string) : exn := Exn kind p.

(** [open(p).read()] and [Path(p).read_text()] *)
Definition read_text (w : World) (p : string) : Exc string :=
  match lookup_path w p with
  | None => Raise (OSError "FileNotFoundError" p)
  | Some (Dir _) => Raise (OSError "IsADirectoryError" p)
  | Some (File None) => Raise (OSError "PermissionError" p)
  | Some (File (Some t)) => Ok t
  end.

(** Truth value of an optional string: set and not empty. *)
Definition nonempty (s : option string) : bool :=
  match s with
  | Some t => negb (String.eqb t "")
  | None => false
  end.

(** ** XML elements *)

Inductive element : Type :=
| Element (tag : string) (attrib : list (string * string))
          (children : list element).

Definition attrib_of (e : element) : list (string * string) :=
  match e with Element _ a _ => a end.

(** [e.find(".//tag")]: the first proper descendant with that tag, in
    document order. *)
Fixpoint find_descendant (tag : string) (e : element) {struct e}
  : option element :=
  match e with
  | Element _ _ cs =>
      (fix go (cs : list element) : option element :=
         match cs with
         | [] => None
         | (Element t _ _ as c) :: rest =>
             if String.eqb t tag then Some c
             else
               match find_descendant tag c with
               | Some d => Some d
               | None => go rest
               end
         end) cs
  end.

(** ** The script *)

(** [a / b] with a divisor that is not a literal. *)
Definition py_div (a b : Q) : Exc Q :=
  if Qeq_bool b 0 then Raise (Exn "ZeroDivisionError" "division by zero")
  else Ok (a / b).

(** [v.lower()]: only a string has the method. *)
Definition py_lower (v : pyval) : Exc string :=
  match v with
  | PStr s => Ok (lower s)
  | _ => Raise (AttributeError v "lower")
  end.

(** [a, b = l] *)
Definition unpack2 (l : list string) : Exc (string * string) :=
  match l with
  | [a; b] => Ok (a, b)
  | [] => Raise (Exn "ValueError" "not enough values to unpack (expected 2, got 0)")
  | [_] => Raise (Exn "ValueError" "not enough values to unpack (expected 2, got 1)")
  | _ => Raise (Exn "ValueError" "too many values to unpack (expected 2)")
  end.

Definition KeyError (k : string) : exn := Exn "KeyError" ("'" ++ k ++ "'").

(** [d[k]] *)
Definition getitem {V : Type} (d : list (string * V)) (k : string) : Exc V :=
  match assoc k d with
  | Some v => Ok v
  | None => Raise (KeyError k)
  end.

Definition of_nat (n : nat) : Q := inject_Z (Z.of_nat n).

(** Three double quotes, and three single ones. *)
Definition triple_double : string :=
  let q := ascii_of_nat 34 in String q (String q (String q EmptyString)).
Definition triple_single : string := "'''".

Section Collectors.

(** The parsers the script calls: [ET.fromstring] on the text of a file,
    [json.loads], and [float] on a string. *)
Variable ET_fromstring : string -> Exc element.
Variable json_loads : string -> Exc pyval.
Variable float_of_str : string -> Exc Q.

Definition WEIGHTS : list (string * Q) :=
  [ ("structure", 0.15);
    ("tests", 0.25);
    ("dead_code", 0.10);
    ("security", 0.20);
    ("docs", 0.15);
    ("ci", 0.15) ].

(** *** score_structure *)

Definition required : list string :=
  ["README.md"; "LICENSE"; ".github"; "src"; "setup.py"; "pyproject.toml"].

Definition score_structure (w : World) : MetricResult :=
  let found :=
    fold_left (fun found f => if path_exists w f then S found else found)
              required 0%nat in
  let value := int_div found (List.length required) in
  (value, [("found_count", PInt (Z.of_nat found));
           ("required", PInt (Z.of_nat (List.length required)))]).

(** *** score_tests *)

(** [ET.parse(p).getroot()] *)
Definition ET_parse (w : World) (p : string) : Exc element :=
  text <- read_text w p ;; ET_fromstring text.

Definition cov_files (w : World) : list string :=
  ((if nonempty (COVERAGE_PATH w)
    then match COVERAGE_PATH w with Some p => [p] | None => [] end
    else [])
   ++ ["coverage.xml"; "htmlcov/coverage.xml"])%list.

(** The body of the [try] in the loop over the candidate reports: the
    new value of [coverage_pct], [None] when no rate is found. *)
Definition report_pct (w : World) (p : string) : Exc (option Q) :=
  root <- ET_parse w p ;;
  match assoc "line-rate" (attrib_of root) with
  | Some s => r <- float_of_str s ;; Ok (Some (r * 100))
  | None =>
      match find_descendant "coverage" root with
      | Some cov =>
          match assoc "line-rate" (attrib_of cov) with
          | Some s => r <- float_of_str s ;; Ok (Some (r * 100))
          | None => Ok None
          end
      | None => Ok None
      end
  end.

(** The loop: the first report that exists and is read without an
    exception ends it ([break]); an exception moves on to the next. *)
Fixpoint scan_reports (w : World) (ps : list string) : option Q :=
  match ps with
  | [] => None
  | p :: rest =>
      if path_exists w p then
        match report_pct w p with
        | Ok pct => pct
        | Raise _ => scan_reports w rest
        end
      else scan_reports w rest
  end.

Definition tests_present (w : World) : bool :=
  path_exists w "tests"
  || any_str (glob_test_files (cwd w) ++ glob_tests_dirs (cwd w))%list.

(** The body of the second [try]: run the suite under coverage, write
    the report and read its rate. *)
Definition instrumented_pct (w : World) : Exc Q :=
  _ <- coverage_run w ;;
  text <- coverage_xml w ;;
  root <- ET_fromstring text ;;
  r <- float_of_str (match assoc "line-rate" (attrib_of root) with
                     | Some s => s
                     | None => "0"
                     end) ;;
  Ok (r * 100).

Definition score_tests (w : World) : MetricResult :=
  let coverage_pct :=
    match scan_reports w (cov_files w) with
    | Some pct => pct
    | None =>
        if tests_present w then
          match instrumented_pct w with
          | Ok pct => pct
          | Raise _ => 0.0
          end
        else 0.0
    end in
  let value := py_min (py_max (coverage_pct / 100.0) 0.0) 1.0 in
  (value, [("coverage_pct", PFloat (py_round coverage_pct 2))]).

(** *** score_dead_code *)

Definition py_files (w : World) : list string := glob_py "" (Dir (cwd w)).

Definition flagged_lines (out : string) : nat :=
  List.length
    (filter (fun l => strip_nonempty l && contains ":" l) (splitlines out)).

(** The loop over the source files; a file that cannot be read adds
    nothing. *)
Definition total_lines (w : World) : nat :=
  fold_left
    (fun total f =>
       match read_text w f with
       | Ok t => (total + count_lines t)%nat
       | Raise _ => total
       end)
    (py_files w) 0%nat.

(** The body of the [try]. *)
Definition vulture_ratio (w : World) : Exc Q :=
  out <- vulture w ;;
  let flagged := flagged_lines out in
  dead_ratio <- py_div (of_nat (flagged * 10))
                       (of_nat (Nat.max (total_lines w) 1)) ;;
  Ok (py_min dead_ratio 1.0).

Definition score_dead_code (w : World) : MetricResult :=
  let dead_ratio :=
    match vulture_ratio w with
    | Ok r => r
    | Raise _ => 0.0
    end in
  let value := 1.0 - dead_ratio in
  (value, [("dead_ratio", PFloat (py_round dead_ratio 3))]).

(** *** score_security *)

Definition add_points (sev : string) (penalty : Q) : Q :=
  if String.eqb sev "low" then penalty + 0.5
  else if String.eqb sev "medium" then penalty + 2.0
  else if String.eqb sev "high" then penalty + 5.0
  else penalty.

(** The loop over the findings.  The penalty is kept when a finding
    raises: the result is the penalty so far and the exception, if any. *)
Fixpoint scan_issues (issues : list pyval) (penalty : Q) : Q * option exn :=
  match issues with
  | [] => (penalty, None)
  | issue :: rest =>
      match (s <- py_get issue "issue_severity" (PStr "") ;; py_lower s) with
      | Ok sev => scan_issues rest (add_points sev penalty)
      | Raise e => (penalty, Some e)
      end
  end.

(** The body of the outer [try]. *)
Definition bandit_penalty (w : World) (penalty : Q) : Q * option exn :=
  match (out <- bandit w ;;
         data <- json_loads out ;;
         results <- py_get data "results" (PList []) ;;
         py_iter results) with
  | Ok issues => scan_issues issues penalty
  | Raise e => (penalty, Some e)
  end.

(** The handler: it reads [Path('.')] as a text file. *)
Definition heuristic_penalty (w : World) (penalty : Q) : Q :=
  match read_text w "." with
  | Ok code =>
      if contains "eval(" code || contains "exec(" code
      then penalty + 2.0
      else penalty
  | Raise _ => penalty
  end.

Definition score_security (w : World) : MetricResult :=
  let penalty := 0.0 in
  let penalty :=
    match bandit_penalty w penalty with
    | (p, None) => p
    | (p, Some _) => heuristic_penalty w p
    end in
  let max_penalty := 10.0 in
  let value := py_max 0.0 (1.0 - penalty / max_penalty) in
  (value, [("penalty", PFloat penalty)]).

(** *** score_docs *)

Definition sections : list string :=
  ["installation"; "usage"; "license"; "contributing"].

(** The loop over the expected sections: the running score and the
    [details] dictionary. *)
Definition scan_sections (text : string) : Q * dict :=
  fold_left
    (fun acc item =>
       let present := contains item text in
       ((if present then fst acc + 1 else fst acc),
        (snd acc ++ [(item, PBool present)])%list))
    sections (0.0, []).

Definition readme_score (w : World) : Exc (Q * dict) :=
  if path_exists w "README.md" then
    text <- read_text w "README.md" ;;
    let text := lower text in
    let acc := scan_sections text in
    Ok (fst acc / 4.0, snd acc)
  else Ok (0.0, []).

(** The condition of the generator: [count(...) > 0] is a substring
    test; the file is opened again for the second delimiter. *)
Definition has_doc_at (w : World) (f : string) : Exc bool :=
  a <- read_text w f ;;
  if contains triple_double (read_n 200 a) then Ok true
  else b <- read_text w f ;; Ok (contains triple_single (read_n 200 b)).

(** [sum(1 for f in py_files if ...)] *)
Fixpoint has_doc (w : World) (fs : list string) : Exc nat :=
  match fs with
  | [] => Ok 0%nat
  | f :: rest =>
      b <- has_doc_at w f ;;
      n <- has_doc w rest ;;
      Ok (if b then S n else n)
  end.

(** [doc_ratio] and its rounded form for the evidence; the ratio is the
    int [0] when there is no source file. *)
Definition doc_ratio (w : World) : Exc (Q * pyval) :=
  match py_files w with
  | [] => Ok (0, PInt 0)
  | fs =>
      n <- has_doc w fs ;;
      r <- py_div (of_nat n) (of_nat (List.length fs)) ;;
      Ok (r, PFloat (py_round r 2))
  end.

Definition score_docs (w : World) : Exc MetricResult :=
  readme <- readme_score w ;;
  let score := fst readme in
  let details := snd readme in
  ratio <- doc_ratio w ;;
  let final := 0.6 * score + 0.4 * fst ratio in
  Ok (final, [("readme_sections", PDict details);
              ("doc_ratio", snd ratio)]).

(** *** score_ci *)

(** [sum(1 for run in runs if run.get("conclusion") == "success")] *)
Fixpoint count_success (runs : list pyval) : Exc nat :=
  match runs with
  | [] => Ok 0%nat
  | run :: rest =>
      c <- py_get run "conclusion" PNone ;;
      n <- count_success rest ;;
      Ok (if eq_str c "success" then S n else n)
  end.

(** The body of the [try]. *)
Definition ci_runs (w : World) (url token : string) : Exc MetricResult :=
  body <- requests_get w url token ;;
  data <- json_loads body ;;
  runs <- py_get data "workflow_runs" (PList []) ;;
  if negb (truthy runs) then Ok (0.0, [("total_runs", PInt 0)])
  else
    total <- py_len runs ;;
    items <- py_iter runs ;;
    success <- count_success items ;;
    value <- py_div (of_nat success) (of_nat total) ;;
    Ok (value, [("total_runs", PInt (Z.of_nat total));
                ("success", PInt (Z.of_nat success))]).

Definition score_ci (w : World) : Exc MetricResult :=
  if negb (nonempty (TOKEN w)) || negb (nonempty (REPO w)) then
    Ok (0.0, [("note", PStr "no token/repo")])
  else
    let token := match TOKEN w with Some t => t | None => "" end in
    let name := match REPO w with Some r => r | None => "" end in
    parts <- unpack2 (str_split "/" name) ;;
    let owner := fst parts in
    let repo := snd parts in
    let url := "https://api.github.com/repos/" ++ owner ++ "/" ++ repo
               ++ "/actions/runs" in
    match ci_runs w url token with
    | Ok r => Ok r
    | Raise e => Ok (0.0, [("error", PStr (str_exn e))])
    end.

(** *** combine *)

Definition combine (scores : list (string * MetricResult)) : Exc Q :=
  total <- fold_left
             (fun total kv =>
                t <- total ;;
                s <- getitem scores (fst kv) ;;
                Ok (t + snd kv * value s))
             WEIGHTS (Ok 0.0) ;;
  Ok (total * 100.0).

End Collectors.

Arguments WEIGHTS : simpl never.
Arguments scan_sections : simpl never.

(** ** What the specification says, in its own words *)

Definition in_unit (q : Q) : Prop := 0 <= q /\ q <= 1.

(** A value clamped to [[0,1]]. *)
Definition clamp01 (q : Q) : Q :=
  if Qlt_le_dec q 0 then 0 else if Qlt_le_dec 1 q then 1 else q.


(** The value of metric [k] in a table of results. *)
Definition value_at (scores : list (string * MetricResult)) (k : string) : Q :=
  match assoc k scores with
  | Some r => value r
  | None => 0
  end.

(** [Σ weight_i × value_i] over the weight table. *)
Definition weighted_sum (scores : list (string * MetricResult)) : Q :=
  fold_right (fun kv acc => snd kv * value_at scores (fst kv) + acc) 0 WEIGHTS.

Definition weight_total : Q := fold_right (fun kv acc => snd kv + acc) 0 WEIGHTS.

(** The severity of a finding of the scanner, in lower case; a finding
    without the field has the empty severity. *)
Definition severity_of (issue : pyval) : option string :=
  match issue with
  | PDict fields =>
      match assoc "issue_severity" fields with
      | Some (PStr s) => Some (lower s)
      | Some _ => None
      | None => Some ""
      end
  | _ => None
  end.

Definition well_formed_finding (issue : pyval) : Prop :=
  exists sev, severity_of issue = Some sev.

Definition count_severity (sev : string) (issues : list pyval) : nat :=
  List.length
    (filter (fun i => match severity_of i with
                      | Some s => String.eqb s sev
                      | None => false
                      end) issues).

(** +0.5 per low finding, +2.0 per medium, +5.0 per high. *)
Definition severity_penalty (issues : list pyval) : Q :=
  0.5 * of_nat (count_severity "low" issues)
  + 2.0 * of_nat (count_severity "medium" issues)
  + 5.0 * of_nat (count_severity "high" issues).

Definition finding (sev : string) : pyval :=
  PDict [("issue_severity", PStr sev); ("test_id", PStr "B000")].

(** [section] is a substring of [text], letter case ignored. *)
Definition found_ignoring_case (text section : string) : bool :=
  contains (lower section) (lower text).

(** Fraction of the four sections found in the README, 0 without a
    README that can be read. *)
Definition readme_fraction (w : World) : Q :=
  match lookup_path w "README.md" with
  | Some (File (Some text)) =>
      of_nat (List.length (filter (found_ignoring_case text) sections)) / 4
  | _ => 0
  end.

(** The README is absent or can be read, and so can every source file. *)
Definition sources_readable (w : World) : Prop :=
  (lookup_path w "README.md" = None
   \/ exists text, lookup_path w "README.md" = Some (File (Some text)))
  /\ Forall (fun f => exists t, read_text w f = Ok t) (py_files w).

(** The credential or the repository identity is missing, or the identity
    has the form [owner/name]. *)
Definition identity_splits (w : World) : Prop :=
  nonempty (TOKEN w) = false \/ nonempty (REPO w) = false
  \/ exists name owner repo,
       REPO w = Some name /\ str_split "/" name = [owner; repo].

(** A source file has a docstring when its first 200 characters hold one
    of the two delimiters; a file that cannot be read has none. *)
Definition has_delimiter (w : World) (f : string) : bool :=
  match read_text w f with
  | Ok t =>
      contains triple_double (read_n 200 t)
      || contains triple_single (read_n 200 t)
  | Raise _ => false
  end.

(** Fraction of the source files that have a docstring, 0 without any
    source file. *)
Definition docstring_fraction (w : World) : Q :=
  match py_files w with
  | [] => 0
  | fs => of_nat (List.length (filter (has_delimiter w) fs))
          / of_nat (List.length fs)
  end.

(** [min((findings × 10) / total_lines, 1.0)] *)
Definition dead_ratio_spec (findings total : nat) : Q :=
  let r := of_nat (findings * 10) / of_nat total in
  if Qlt_le_dec 1 r then 1 else r.

(** A path of the candidate list is passed over when nothing is there or
    when reading the report raises. *)
Definition passed_over (ET_fromstring : string -> Exc element)
           (float_of_str : string -> Exc Q) (w : World) (p : string) : Prop :=
  path_exists w p = false
  \/ exists e, report_pct ET_fromstring float_of_str w p = Raise e.

(** ** Parsers and worlds for the examples *)

Definition digit (c : ascii) : option Z :=
  let n := nat_of_ascii c in
  if Nat.leb 48 n && Nat.leb n 57 then Some (Z.of_nat (n - 48)) else None.

Fixpoint digits (acc : Z) (s : string) : option Z :=
  match s with
  | EmptyString => Some acc
  | String c s' =>
      match digit c with
      | Some d => digits (10 * acc + d) s'
      | None => None
      end
  end.

(** A reader of plain decimals such as [0.87], enough for the examples. *)
Definition decimal_float (s : string) : Exc Q :=
  let bad := Raise (Exn "ValueError" ("could not convert string to float: '" ++ s ++ "'")) in
  match str_split "." s with
  | [i] =>
      match i, digits 0 i with
      | String _ _, Some n => Ok (inject_Z n)
      | _, _ => bad
      end
  | [i; f] =>
      match String.append i f, digits 0 (String.append i f) with
      | String _ _, Some n =>
          Ok (inject_Z n / inject_Z (10 ^ Z.of_nat (String.length f)))
      | _, _ => bad
      end
  | _ => bad
  end.

(** Parsers given by a finite table of the texts they accept. *)
Definition table_parser {A : Type} (kind : string) (t : list (string * A))
           (s : string) : Exc A :=
  match assoc s t with
  | Some a => Ok a
  | None => Raise (Exn kind s)
  end.

Definition no_tool {A : Type} (name : string) : Exc A :=
  Raise (Exn "FileNotFoundError" name).

Definition offline (url token : string) : Exc string :=
  Raise (Exn "ConnectionError" url).

(** An empty repository with nothing configured and no tool installed. *)
Definition bare : World :=
  {| REPO := None; TOKEN := None; COVERAGE_PATH := None; cwd := [];
     coverage_run := no_tool "coverage"; coverage_xml := no_tool "coverage";
     vulture := no_tool "vulture"; bandit := no_tool "bandit";
     requests_get := offline |}.

Definition with_cwd (w : World) (es : list (string * node)) : World :=
  {| REPO := REPO w; TOKEN := TOKEN w; COVERAGE_PATH := COVERAGE_PATH w;
     cwd := es;
     coverage_run := coverage_run w; coverage_xml := coverage_xml w;
     vulture := vulture w; bandit := bandit w;
     requests_get := requests_get w |}.

Definition with_bandit (w : World) (out : Exc string) : World :=
  {| REPO := REPO w; TOKEN := TOKEN w; COVERAGE_PATH := COVERAGE_PATH w;
     cwd := cwd w;
     coverage_run := coverage_run w; coverage_xml := coverage_xml w;
     vulture := vulture w; bandit := out;
     requests_get := requests_get w |}.

Definition with_vulture (w : World) (out : Exc string) : World :=
  {| REPO := REPO w; TOKEN := TOKEN w; COVERAGE_PATH := COVERAGE_PATH w;
     cwd := cwd w;
     coverage_run := coverage_run w; coverage_xml := coverage_xml w;
     vulture := out; bandit := bandit w;
     requests_get := requests_get w |}.

Definition with_ci (w : World) (repo token : option string)
           (get : string -> string -> Exc string) : World :=
  {| REPO := repo; TOKEN := token; COVERAGE_PATH := COVERAGE_PATH w;
     cwd := cwd w;
     coverage_run := coverage_run w; coverage_xml := coverage_xml w;
     vulture := vulture w; bandit := bandit w;
     requests_get := get |}.

(** The worlds of the examples. *)


Definition example_json : string -> Exc pyval :=
  table_parser "JSONDecodeError"
    [("bandit: low, low, high",
      PDict [("results",
              PList [finding "LOW"; finding "LOW"; finding "HIGH"])]);
     ("github: no runs",
      PDict [("total_count", PInt 0); ("workflow_runs", PList [])]);
     ("github: thirty runs",
      PDict [("total_count", PInt 30);
             ("workflow_runs",
              PList (repeat (PDict [("conclusion", PStr "success")]) 27
                     ++ repeat (PDict [("conclusion", PStr "failure")]) 3))])].

Definition half_scores : list (string * MetricResult) :=
  [("structure", (0.5, [])); ("tests", (1, [])); ("dead_code", (0, []));
   ("security", (0.4, [])); ("docs", (0.5, [])); ("ci", (0.9, []))].

(** The scanner reports two low findings and a high one. *)
Definition scanned : World := with_bandit bare (Ok "bandit: low, low, high").

(** No scanner, and a source file that calls [eval]. *)
Definition eval_repo : World :=
  with_cwd bare [("app.py", File (Some "result = eval(input())"))].

(** A token and a repository name without a slash. *)
Definition malformed_repo : World :=
  with_ci bare (Some "norepo") (Some "secret") offline.


(** A README with two of the four sections, and two source files of
    which one starts with a docstring. *)
Definition documented : World :=
  with_cwd bare
    [("README.md", File (Some "# Tool  ## Installation  ## License"));
     ("a.py", File (Some "'''Entry point.''' import sys"));
     ("src", Dir [("b.py", File (Some "import os"))])].

(** A source file that cannot be opened. *)
Definition unreadable : World :=
  with_cwd bare [("README.md", File (Some "usage")); ("a.py", File None)].

(** One finding of the detector over a file of twenty-five lines. *)
Definition twenty_five_lines : string :=
  string_of_list_ascii (repeat (ascii_of_nat 10) 25).

Definition vultured : World :=
  with_vulture
    (with_cwd bare [("a.py", File (Some twenty_five_lines))])
    (Ok "a.py:3: unused variable 'x' (60% confidence)").

(** The provider answers with an empty list of runs. *)
Definition no_runs : World :=
  with_ci bare (Some "octo/tool") (Some "secret")
          (fun _ _ => Ok "github: no runs").

(** The provider answers with thirty runs, twenty-seven of them
    successful. *)
Definition thirty_runs : World :=
  with_ci bare (Some "octo/tool") (Some "secret")
          (fun _ _ => Ok "github: thirty runs").

(** ** Further notions and worlds *)

(** Number of the required artifacts that exist. *)
Definition present_count (w : World) : nat :=
  List.length (filter (path_exists w) required).

(** The findings the loop of [score_security] iterates over: none when
    the scanner, the decoding of its report or the [results] entry
    fails. *)
Definition reported_findings (json_loads : string -> Exc pyval) (w : World)
  : list pyval :=
  match (out <- bandit w ;;
         data <- json_loads out ;;
         results <- py_get data "results" (PList []) ;;
         py_iter results) with
  | Ok issues => issues
  | Raise _ => []
  end.

(** The findings before the first one that is not well formed. *)
Fixpoint well_formed_prefix (issues : list pyval) : list pyval :=
  match issues with
  | [] => []
  | issue :: rest =>
      match severity_of issue with
      | Some _ => issue :: well_formed_prefix rest
      | None => []
      end
  end.

Definition is_object (v : pyval) : bool :=
  match v with
  | PDict _ => true
  | _ => false
  end.

(** Number of runs whose conclusion is [success]. *)
Definition successes (runs : list pyval) : nat :=
  List.length
    (filter (fun run =>
               match run with
               | PDict d =>
                   match assoc "conclusion" d with
                   | Some c => eq_str c "success"
                   | None => false
                   end
               | _ => false
               end) runs).

(** The keys of the report, in the order [main] fills it. *)
Definition metric_names : list string :=
  ["structure"; "tests"; "dead_code"; "security"; "docs"; "ci"].

Definition with_coverage (w : World) (path : option string)
           (run : Exc unit) (xml : Exc string) : World :=
  {| REPO := REPO w; TOKEN := TOKEN w; COVERAGE_PATH := path;
     cwd := cwd w;
     coverage_run := run; coverage_xml := xml;
     vulture := vulture w; bandit := bandit w;
     requests_get := requests_get w |}.

Definition more_xml : string -> Exc element :=
  table_parser "ParseError"
    [("<coverage line-rate='0.87'/>",
      Element "coverage" [("line-rate", "0.87")] []);
     ("<report><coverage line-rate='0.5'/></report>",
      Element "report" [] [Element "coverage" [("line-rate", "0.5")] []]);
     ("<report/>", Element "report" [] [])].

Definition more_json : string -> Exc pyval :=
  table_parser "JSONDecodeError"
    [("bandit: low, broken, high",
      PDict [("results", PList [finding "LOW"; PInt 42; finding "HIGH"])]);
     ("github: thirty runs",
      PDict [("workflow_runs",
              PList (repeat (PDict [("conclusion", PStr "success")]) 27
                     ++ repeat (PDict [("conclusion", PStr "failure")]) 3))]);
     ("github: broken run",
      PDict [("workflow_runs",
              PList [PDict [("conclusion", PStr "success")]; PStr "oops"])])].

(** The report holds its rate on a nested element. *)
Definition nested_report : World :=
  with_cwd bare
    [("coverage.xml",
      File (Some "<report><coverage line-rate='0.5'/></report>"))].

(** The configured report has no rate; the conventional one has. *)
Definition shadowed_report : World :=
  with_coverage
    (with_cwd bare
       [("custom.xml", File (Some "<report/>"));
        ("coverage.xml", File (Some "<coverage line-rate='0.87'/>"))])
    (Some "custom.xml") (no_tool "coverage") (no_tool "coverage").

(** A test directory, without and with the coverage tool. *)
Definition tests_without_tool : World :=
  with_cwd bare [("tests", Dir [("test_app.py", File (Some "def test_it(): pass"))])].

Definition tests_with_tool : World :=
  with_coverage tests_without_tool None (Ok tt)
                (Ok "<coverage line-rate='0.87'/>").

(** The second finding of the report is a number. *)
Definition broken_finding : World :=
  with_bandit bare (Ok "bandit: low, broken, high").

(** The second run of the answer is a string. *)
Definition broken_run : World :=
  with_ci bare (Some "octo/tool") (Some "secret")
          (fun _ _ => Ok "github: broken run").

(** A README that is a directory. *)
Definition readme_directory : World :=
  with_cwd bare [("README.md", Dir [])].

(** Results without the CI metric, and results that are nowhere worse
    than [half_scores]. *)
Definition five_scores : list (string * MetricResult) :=
  [("structure", (0.5, [])); ("tests", (1, [])); ("dead_code", (0, []));
   ("security", (0.4, [])); ("docs", (0.5, []))].

Definition better_scores : list (string * MetricResult) :=
  [("structure", (1, [])); ("tests", (1, [])); ("dead_code", (0.5, []));
   ("security", (0.4, [])); ("docs", (0.75, [])); ("ci", (0.9, []))].

Definition even_scores : list (string * MetricResult) :=
  map (fun k => (k, (0.25, [("note", PStr k)]))) metric_names.

(** Two findings of the detector, a remark without colon and an empty
    line. *)
Definition vulture_report : string :=
  String.concat (String (ascii_of_nat 10) EmptyString)
    ["a.py:3: unused variable 'x' (60% confidence)";
     "scanning done"; "";
     "a.py:9: unused function 'f' (60% confidence)"].

Definition saturated : World :=
  with_vulture
    (with_cwd bare [("a.py", File (Some twenty_five_lines));
                    ("b.py", File None)])
    (Ok (vulture_report ++ String (ascii_of_nat 10) "b.py:1: unused import 'os' (90% confidence)")).

(** ** Subprocesses and the candidate reports *)

(** What a subprocess leaves when it has run: its exit status and what it
    printed. *)
Record completed : Type := Completed { returncode : Z; stdout : string }.

(** [subprocess.check_output(cmd)], from which the fields [vulture] and
    [bandit] of a world come: [None] is a command that cannot be
    started, and an exit status other than 0 raises. *)
Definition check_output (cmd : string) (p : option completed) : Exc string :=
  match p with
  | None => Raise (Exn "FileNotFoundError" cmd)
  | Some c =>
      if Z.eqb (returncode c) 0 then Ok (stdout c)
      else Raise (Exn "CalledProcessError" cmd)
  end.


(** The scanner runs, reports two low findings and a high one and, as it
    does whenever it reports a finding, exits with status 1. *)
Definition scanner_found_three : World :=
  with_bandit bare
    (check_output "bandit"
       (Some (Completed 1 "bandit: low, low, high"))).

(** The detector runs over a file of twenty-five lines, prints two
    findings and, as it does whenever it reports dead code, exits with
    status 3. *)
Definition detector_found_two : World :=
  with_vulture
    (with_cwd bare [("a.py", File (Some twenty_five_lines))])
    (check_output "vulture" (Some (Completed 3 vulture_report))).


(** ** Arithmetic of the model *)

(** Division by a literal becomes a product, which [lra] understands. *)
Ltac literal_div :=
  unfold Qdiv in *;
  repeat match goal with
         | |- context [Qinv (Qmake ?n ?d)] =>
             let c := eval vm_compute in (Qinv (Qmake n d)) in
             change (Qinv (Qmake n d)) with c
         | H : context [Qinv (Qmake ?n ?d)] |- _ =>
             let c := eval vm_compute in (Qinv (Qmake n d)) in
             change (Qinv (Qmake n d)) with c in H
         end.

Lemma Ok_inj {A : Type} (a b : A) : Ok a = Ok b -> a = b.
Proof. intros E. now injection E. Qed.

Lemma py_min_le_r (a b : Q) : py_min a b <= b.
Proof. unfold py_min. destruct (Qlt_le_dec b a); lra. Qed.

Lemma py_min_glb (a b c : Q) : c <= a -> c <= b -> c <= py_min a b.
Proof. unfold py_min. destruct (Qlt_le_dec b a); lra. Qed.

Lemma py_max_ge_l (a b : Q) : a <= py_max a b.
Proof. unfold py_max. destruct (Qlt_le_dec a b); lra. Qed.

Lemma py_max_ge_r (a b : Q) : b <= py_max a b.
Proof. unfold py_max. destruct (Qlt_le_dec a b); lra. Qed.

Lemma py_max_lub (a b c : Q) : a <= c -> b <= c -> py_max a b <= c.
Proof. unfold py_max. destruct (Qlt_le_dec a b); lra. Qed.

(** The clamp of [score_tests] is the clamp of the specification. *)
Lemma clamp_min_max (x : Q) : py_min (py_max x 0.0) 1.0 == clamp01 x.
Proof.
  unfold py_min, py_max, clamp01.
  destruct (Qlt_le_dec x 0.0), (Qlt_le_dec x 0), (Qlt_le_dec 1 x);
    try lra;
    match goal with
    | |- context [Qlt_le_dec 1.0 ?y] => destruct (Qlt_le_dec 1.0 y)
    end; lra.
Qed.

Lemma clamp01_in_unit (x : Q) : in_unit (clamp01 x).
Proof.
  unfold in_unit, clamp01.
  destruct (Qlt_le_dec x 0); [lra |].
  destruct (Qlt_le_dec 1 x); lra.
Qed.

Lemma clamp01_compat (x y : Q) : x == y -> clamp01 x == clamp01 y.
Proof.
  intros E. unfold clamp01.
  destruct (Qlt_le_dec x 0), (Qlt_le_dec y 0); try lra;
    destruct (Qlt_le_dec 1 x), (Qlt_le_dec 1 y); lra.
Qed.

Lemma of_nat_nonneg (n : nat) : 0 <= of_nat n.
Proof.
  unfold of_nat, Qle. simpl. lia.
Qed.

Lemma of_nat_le (n m : nat) : (n <= m)%nat -> of_nat n <= of_nat m.
Proof.
  intros H. unfold of_nat, Qle. simpl. lia.
Qed.

Lemma of_nat_pos (n : nat) : (0 < n)%nat -> 0 < of_nat n.
Proof.
  intros H. unfold of_nat, Qlt. simpl. lia.
Qed.

Lemma of_nat_S (n : nat) : of_nat (S n) == of_nat n + 1.
Proof.
  unfold of_nat. rewrite Nat2Z.inj_succ, <- Z.add_1_r, inject_Z_plus.
  reflexivity.
Qed.

(** A quotient of two counts, the first at most the second, is in
    [[0,1]]. *)
Lemma ratio_in_unit (n m : nat) :
  (n <= m)%nat -> (0 < m)%nat -> in_unit (of_nat n / of_nat m).
Proof.
  intros Hle Hpos. pose proof (of_nat_pos m Hpos) as Hm.
  split.
  - apply Qle_shift_div_l; [exact Hm |]. rewrite Qmult_0_l. apply of_nat_nonneg.
  - apply Qle_shift_div_r; [exact Hm |]. rewrite Qmult_1_l. now apply of_nat_le.
Qed.

Lemma py_div_pos (a b : Q) : 0 < b -> py_div a b = Ok (a / b).
Proof.
  intros Hb. unfold py_div.
  destruct (Qeq_bool b 0) eqn:E; [| reflexivity].
  apply Qeq_bool_eq in E. lra.
Qed.

(** ** The aggregator *)

Lemma weight_total_one : weight_total == 1.
Proof. vm_compute. reflexivity. Qed.

(** C1.  If each of the six metrics of the weight table has a value in
    [[0,1]], then [combine] returns [100 × Σ weight_i × value_i], and this
    score lies in [[0,100]]; the weights of the table sum to 1. *)
Theorem combine_in_range (scores : list (string * MetricResult)) :
  (forall k, In k (map fst WEIGHTS) ->
             exists r, assoc k scores = Some r /\ in_unit (value r)) ->
  weight_total == 1 /\
  exists final_score,
    combine scores = Ok final_score /\
    final_score == 100 * weighted_sum scores /\
    0 <= final_score /\ final_score <= 100.
Proof.
  intros H. split; [apply weight_total_one |].
  assert (Hk : forall k, In k (map fst WEIGHTS) ->
                         exists r, getitem scores k = Ok r
                                   /\ value_at scores k = value r
                                   /\ in_unit (value r)).
  { intros k Hin. destruct (H k Hin) as (r & Hr & Hu).
    exists r. unfold getitem, value_at. rewrite Hr. auto. }
  unfold WEIGHTS in Hk. cbn [map fst] in Hk.
  destruct (Hk "structure") as (r1 & G1 & V1 & [L1 U1]); [cbn; tauto |].
  destruct (Hk "tests") as (r2 & G2 & V2 & [L2 U2]); [cbn; tauto |].
  destruct (Hk "dead_code") as (r3 & G3 & V3 & [L3 U3]); [cbn; tauto |].
  destruct (Hk "security") as (r4 & G4 & V4 & [L4 U4]); [cbn; tauto |].
  destruct (Hk "docs") as (r5 & G5 & V5 & [L5 U5]); [cbn; tauto |].
  destruct (Hk "ci") as (r6 & G6 & V6 & [L6 U6]); [cbn; tauto |].
  unfold combine, weighted_sum, WEIGHTS.
  cbn [fold_left fold_right fst snd bind].
  rewrite G1, G2, G3, G4, G5, G6, V1, V2, V3, V4, V5, V6.
  cbn [bind].
  eexists. split; [reflexivity |].
  split; [| split]; lra.
Qed.

(** The collectors that take a parser are unfolded by these tactics. *)
Ltac open_score_tests := unfold score_tests.
Ltac open_score_security := unfold score_security.
Ltac open_bandit_penalty := unfold bandit_penalty.
Ltac open_score_ci := unfold score_ci.
Ltac open_ci_runs := unfold ci_runs.
Ltac open_report_pct := unfold report_pct.
Ltac step_scan_reports := cbn [app scan_reports].

Section Properties.

Variable ET_fromstring : string -> Exc element.
Variable json_loads : string -> Exc pyval.
Variable float_of_str : string -> Exc Q.

Local Notation score_tests := (score_tests ET_fromstring float_of_str).
Local Notation score_security := (score_security json_loads).
Local Notation score_ci := (score_ci json_loads).
Local Notation ci_runs := (ci_runs json_loads).
Local Notation bandit_penalty := (bandit_penalty json_loads).
Local Notation report_pct := (report_pct ET_fromstring float_of_str).
Local Notation scan_reports := (scan_reports ET_fromstring float_of_str).
Local Notation ET_parse := (ET_parse ET_fromstring).
Local Notation passed_over := (passed_over ET_fromstring float_of_str).

(** *** Every value is in [[0,1]] *)

Lemma found_le (P : string -> bool) (l : list string) (n : nat) :
  (fold_left (fun found f => if P f then S found else found) l n
   <= n + List.length l)%nat.
Proof.
  revert n. induction l as [| f l IH]; intros n; cbn [fold_left List.length].
  - lia.
  - specialize (IH (if P f then S n else n)). destruct (P f); lia.
Qed.

Lemma structure_in_unit (w : World) : in_unit (value (score_structure w)).
Proof.
  unfold score_structure, value. cbn [fst].
  apply ratio_in_unit.
  - apply (found_le (path_exists w) required 0).
  - cbn. lia.
Qed.

Lemma vulture_ratio_in_unit (w : World) (r : Q) :
  vulture_ratio w = Ok r -> in_unit r.
Proof.
  unfold vulture_ratio. destruct (vulture w) as [out | e]; cbn [bind]; [| discriminate].
  rewrite py_div_pos by (apply of_nat_pos; lia). cbn [bind].
  intros E. injection E as <-.
  split.
  - apply py_min_glb; [| lra].
    apply Qle_shift_div_l; [apply of_nat_pos; lia |].
    rewrite Qmult_0_l. apply of_nat_nonneg.
  - eapply Qle_trans; [apply py_min_le_r |]. lra.
Qed.

Lemma dead_code_in_unit (w : World) : in_unit (value (score_dead_code w)).
Proof.
  unfold score_dead_code, value. cbn [fst].
  destruct (vulture_ratio w) as [r | e] eqn:E.
  - destruct (vulture_ratio_in_unit w r E). split; lra.
  - split; lra.
Qed.

Lemma add_points_nonneg (sev : string) (p : Q) : 0 <= p -> 0 <= add_points sev p.
Proof.
  intros H. unfold add_points.
  destruct (String.eqb sev "low"); [lra |].
  destruct (String.eqb sev "medium"); [lra |].
  destruct (String.eqb sev "high"); lra.
Qed.

Lemma scan_issues_nonneg (issues : list pyval) (p : Q) :
  0 <= p -> 0 <= fst (scan_issues issues p).
Proof.
  revert p. induction issues as [| i issues IH]; intros p Hp; cbn [scan_issues].
  - exact Hp.
  - destruct (s <- py_get i "issue_severity" (PStr "") ;; py_lower s) as [sev | e].
    + apply IH. now apply add_points_nonneg.
    + exact Hp.
Qed.

Lemma bandit_penalty_nonneg (w : World) (p : Q) :
  0 <= p -> 0 <= fst (bandit_penalty w p).
Proof.
  intros Hp. open_bandit_penalty.
  match goal with |- context [match ?m with Ok _ => _ | Raise _ => _ end] =>
    destruct m as [issues | e] end.
  - now apply scan_issues_nonneg.
  - exact Hp.
Qed.

Lemma heuristic_penalty_nonneg (w : World) (p : Q) :
  0 <= p -> 0 <= heuristic_penalty w p.
Proof.
  intros Hp. unfold heuristic_penalty.
  destruct (read_text w ".") as [code | e]; [| exact Hp].
  destruct (contains "eval(" code || contains "exec(" code); lra.
Qed.

Lemma security_in_unit (w : World) : in_unit (value (score_security w)).
Proof.
  open_score_security; unfold value. cbn [fst].
  pose proof (bandit_penalty_nonneg w 0.0) as Hb.
  destruct (bandit_penalty w 0.0) as [p [e |]]; cbn [fst] in Hb.
  - assert (Hp : 0 <= heuristic_penalty w p)
      by (apply heuristic_penalty_nonneg, Hb; lra).
    split.
    + eapply Qle_trans; [| apply py_max_ge_l]. lra.
    + apply py_max_lub; [lra |]. literal_div. lra.
  - assert (Hp : 0 <= p) by (apply Hb; lra).
    split.
    + eapply Qle_trans; [| apply py_max_ge_l]. lra.
    + apply py_max_lub; [lra |]. literal_div. lra.
Qed.

(** The score of the README is the fraction of the sections it names. *)
Lemma scan_sections_count (text : string) :
  fst (scan_sections text)
  == of_nat (List.length (filter (fun s => contains s text) sections)).
Proof.
  unfold scan_sections, sections. cbn [fold_left filter fst snd].
  destruct (contains "installation" text), (contains "usage" text),
    (contains "license" text), (contains "contributing" text);
    vm_compute; reflexivity.
Qed.

Lemma filter_length_le {A : Type} (P : A -> bool) (l : list A) :
  (List.length (filter P l) <= List.length l)%nat.
Proof.
  induction l as [| a l IH]; cbn [filter List.length]; [lia |].
  destruct (P a); cbn [List.length]; lia.
Qed.

Lemma sections_found (text : string) :
  filter (found_ignoring_case text) sections
  = filter (fun s => contains s (lower text)) sections.
Proof. reflexivity. Qed.

Lemma readme_fraction_in_unit (w : World) : in_unit (readme_fraction w).
Proof.
  unfold readme_fraction.
  destruct (lookup_path w "README.md") as [[[text |] | es] |];
    try (split; lra).
  change 4 with (of_nat (List.length sections)).
  apply ratio_in_unit; [apply filter_length_le | cbn; lia].
Qed.

Lemma readme_score_spec (w : World) (r : Q * dict) :
  readme_score w = Ok r -> fst r == readme_fraction w.
Proof.
  unfold readme_score, readme_fraction, path_exists, read_text.
  destruct (lookup_path w "README.md") as [[[text |] | es] |];
    cbn [bind]; try discriminate.
  - intros E. apply Ok_inj in E. subst r. cbn [fst].
    rewrite scan_sections_count, <- (sections_found text). literal_div. lra.
  - intros E. injection E as <-. cbn [fst]. reflexivity.
Qed.

Lemma has_doc_at_spec (w : World) (f : string) (b : bool) :
  has_doc_at w f = Ok b -> b = has_delimiter w f.
Proof.
  unfold has_doc_at, has_delimiter.
  destruct (read_text w f) as [t | e]; cbn [bind]; [| discriminate].
  destruct (contains triple_double (read_n 200 t)); cbn [bind orb];
    intros E; injection E as <-; reflexivity.
Qed.

Lemma has_doc_spec (w : World) (fs : list string) (n : nat) :
  has_doc w fs = Ok n -> n = List.length (filter (has_delimiter w) fs).
Proof.
  revert n. induction fs as [| f fs IH]; intros n; cbn [has_doc filter].
  - intros E. injection E as <-. reflexivity.
  - destruct (has_doc_at w f) as [b | e] eqn:Eb; cbn [bind]; [| discriminate].
    apply has_doc_at_spec in Eb. subst b.
    destruct (has_doc w fs) as [m | e]; cbn [bind]; [| discriminate].
    intros E. injection E as <-. rewrite (IH m eq_refl).
    destruct (has_delimiter w f); reflexivity.
Qed.

Lemma doc_ratio_spec (w : World) (r : Q * pyval) :
  doc_ratio w = Ok r -> fst r = docstring_fraction w.
Proof.
  unfold doc_ratio, docstring_fraction.
  destruct (py_files w) as [| f fs].
  - intros E. injection E as <-. reflexivity.
  - destruct (has_doc w (f :: fs)) as [n | e] eqn:En; cbn [bind]; [| discriminate].
    apply has_doc_spec in En. subst n.
    rewrite py_div_pos by (apply of_nat_pos; cbn; lia). cbn [bind].
    intros E. injection E as <-. reflexivity.
Qed.

Lemma docstring_fraction_in_unit (w : World) : in_unit (docstring_fraction w).
Proof.
  unfold docstring_fraction.
  destruct (py_files w) as [| f fs]; [split; lra |].
  apply ratio_in_unit; [apply filter_length_le | cbn; lia].
Qed.

(** Whenever [score_docs] returns, its value is the weighted sum of the
    two fractions. *)
Lemma score_docs_value (w : World) (r : MetricResult) :
  score_docs w = Ok r ->
  value r == 0.6 * readme_fraction w + 0.4 * docstring_fraction w.
Proof.
  unfold score_docs.
  destruct (readme_score w) as [rs | e] eqn:Er; cbn [bind]; [| discriminate].
  destruct (doc_ratio w) as [dr | e] eqn:Ed; cbn [bind]; [| discriminate].
  intros E. injection E as <-. unfold value. cbn [fst].
  rewrite (readme_score_spec w rs Er), (doc_ratio_spec w dr Ed).
  reflexivity.
Qed.

Lemma docs_in_unit (w : World) (r : MetricResult) :
  score_docs w = Ok r -> in_unit (value r).
Proof.
  intros E. apply score_docs_value in E.
  destruct (readme_fraction_in_unit w), (docstring_fraction_in_unit w).
  split; lra.
Qed.

Lemma py_div_ok (a b v : Q) : py_div a b = Ok v -> ~ b == 0 /\ v = a / b.
Proof.
  unfold py_div. destruct (Qeq_bool b 0) eqn:E; [discriminate |].
  intros H. injection H as <-. split; [| reflexivity].
  now apply Qeq_bool_neq.
Qed.

Lemma count_success_le (items : list pyval) (n : nat) :
  count_success items = Ok n -> (n <= List.length items)%nat.
Proof.
  revert n. induction items as [| i items IH]; intros n; cbn [count_success].
  - intros E. injection E as <-. cbn. lia.
  - destruct (py_get i "conclusion" PNone) as [c | e]; cbn [bind]; [| discriminate].
    destruct (count_success items) as [m | e]; cbn [bind]; [| discriminate].
    intros E. injection E as <-. specialize (IH m eq_refl).
    destruct (eq_str c "success"); cbn [List.length]; lia.
Qed.

Lemma length_list_ascii (s : string) :
  List.length (list_ascii_of_string s) = String.length s.
Proof.
  induction s as [| c s IH]; cbn; [reflexivity | now rewrite IH].
Qed.

Lemma len_iter (runs : pyval) (total : nat) (items : list pyval) :
  py_len runs = Ok total -> py_iter runs = Ok items ->
  List.length items = total.
Proof.
  destruct runs; cbn; try discriminate;
    intros E1 E2; injection E1 as <-; injection E2 as <-.
  - unfold chars. now rewrite length_map, length_list_ascii.
  - reflexivity.
  - now rewrite length_map.
Qed.

(** The two ways the [try] of [score_ci] returns: no run at all, or a
    success rate over a positive number of runs. *)
Lemma ci_runs_shape (w : World) (url token : string) (r : MetricResult) :
  ci_runs w url token = Ok r ->
  r = (0.0, [("total_runs", PInt 0)])
  \/ exists total success : nat,
       (0 < total)%nat /\ (success <= total)%nat
       /\ r = (of_nat success / of_nat total,
               [("total_runs", PInt (Z.of_nat total));
                ("success", PInt (Z.of_nat success))]).
Proof.
  open_ci_runs.
  destruct (requests_get w url token) as [body | e]; cbn [bind]; [| discriminate].
  destruct (json_loads body) as [data | e]; cbn [bind]; [| discriminate].
  destruct (py_get data "workflow_runs" (PList [])) as [runs | e];
    cbn [bind]; [| discriminate].
  destruct (truthy runs); cbn [negb].
  - destruct (py_len runs) as [total | e] eqn:El; cbn [bind]; [| discriminate].
    destruct (py_iter runs) as [items | e] eqn:Ei; cbn [bind]; [| discriminate].
    destruct (count_success items) as [success | e] eqn:Ec;
      cbn [bind]; [| discriminate].
    destruct (py_div (of_nat success) (of_nat total)) as [v | e] eqn:Ev;
      cbn [bind]; [| discriminate].
    intros E. injection E as <-. right. exists total, success.
    apply py_div_ok in Ev. destruct Ev as [Hnz ->].
    apply count_success_le in Ec. rewrite (len_iter runs total items El Ei) in Ec.
    split; [| split; [exact Ec | reflexivity]].
    destruct total; [exfalso; apply Hnz; reflexivity | lia].
  - intros E. injection E as <-. left. reflexivity.
Qed.

Lemma ci_in_unit (w : World) (r : MetricResult) :
  score_ci w = Ok r -> in_unit (value r).
Proof.
  open_score_ci.
  destruct (negb (nonempty (TOKEN w)) || negb (nonempty (REPO w))).
  - intros E. injection E as <-. split; cbn; lra.
  - destruct (unpack2 _) as [parts | e]; cbn [bind]; [| discriminate].
    match goal with |- context [ci_runs w ?u ?t] =>
      destruct (ci_runs w u t) as [r' | e] eqn:Er end.
    + intros E. injection E as <-.
      destruct (ci_runs_shape _ _ _ _ Er) as [-> | (total & success & Hp & Hs & ->)].
      * split; cbn; lra.
      * unfold value. cbn [fst]. now apply ratio_in_unit.
    + intros E. injection E as <-. split; cbn; lra.
Qed.

(** *** When the docs and CI collectors return *)

Lemma has_doc_total (w : World) (fs : list string) :
  Forall (fun f => exists t, read_text w f = Ok t) fs ->
  exists n, has_doc w fs = Ok n.
Proof.
  induction 1 as [| f fs [t Ht] _ [n IH]]; cbn [has_doc].
  - eexists; reflexivity.
  - unfold has_doc_at. rewrite Ht, IH. cbn [bind].
    destruct (contains triple_double (read_n 200 t)); cbn [bind];
      eexists; reflexivity.
Qed.

Lemma doc_ratio_total (w : World) :
  Forall (fun f => exists t, read_text w f = Ok t) (py_files w) ->
  exists r, doc_ratio w = Ok r.
Proof.
  intros H. unfold doc_ratio.
  destruct (py_files w) as [| f fs]; [eexists; reflexivity |].
  destruct (has_doc_total w (f :: fs) H) as [n ->]. cbn [bind].
  rewrite py_div_pos by (apply of_nat_pos; cbn; lia).
  eexists; reflexivity.
Qed.

Lemma readme_score_total (w : World) :
  lookup_path w "README.md" = None
  \/ (exists text, lookup_path w "README.md" = Some (File (Some text))) ->
  exists r, readme_score w = Ok r.
Proof.
  unfold readme_score, path_exists, read_text.
  intros [-> | [text ->]]; eexists; reflexivity.
Qed.

Lemma score_docs_returns (w : World) :
  sources_readable w -> exists r, score_docs w = Ok r.
Proof.
  intros [Hreadme Hfiles].
  destruct (readme_score_total w Hreadme) as [rs Hrs].
  destruct (doc_ratio_total w Hfiles) as [dr Hdr].
  unfold score_docs. rewrite Hrs, Hdr. cbn [bind]. eexists; reflexivity.
Qed.

Lemma has_doc_readable (w : World) (fs : list string) (n : nat) :
  has_doc w fs = Ok n -> Forall (fun f => exists t, read_text w f = Ok t) fs.
Proof.
  revert n. induction fs as [| f fs IH]; intros n; [constructor |].
  cbn [has_doc]. unfold has_doc_at.
  destruct (read_text w f) as [t | e] eqn:Et; cbn [bind]; [| discriminate].
  intros E. constructor; [now exists t |].
  destruct (has_doc w fs) as [m | e'] eqn:Em; [now apply (IH m) |].
  destruct (contains triple_double (read_n 200 t)); discriminate E.
Qed.

Lemma score_docs_returns_iff (w : World) :
  (exists r, score_docs w = Ok r) <-> sources_readable w.
Proof.
  split; [| apply score_docs_returns].
  intros [r Hr]. unfold score_docs in Hr.
  destruct (readme_score w) as [rs | e] eqn:Ers; cbn [bind] in Hr;
    [| discriminate].
  destruct (doc_ratio w) as [dr | e] eqn:Edr; cbn [bind] in Hr;
    [| discriminate].
  split.
  - unfold readme_score, path_exists, read_text in Ers.
    destruct (lookup_path w "README.md") as [[[text |] | es] |];
      cbn [bind] in Ers; try discriminate; [right; now exists text | now left].
  - unfold doc_ratio in Edr.
    destruct (py_files w) as [| f fs]; [constructor |].
    destruct (has_doc w (f :: fs)) as [n | e] eqn:En; cbn [bind] in Edr;
      [| discriminate].
    now apply (has_doc_readable w (f :: fs) n).
Qed.

(** The CI collector returns when the identity is missing or splits in
    two, and only then. *)
Lemma score_ci_returns (w : World) :
  identity_splits w -> exists r, score_ci w = Ok r.
Proof.
  open_score_ci. intros [H | [H | (name & owner & repo & Hr & Hs)]].
  - rewrite H. cbn [negb orb]. eexists; reflexivity.
  - rewrite H, orb_true_r. eexists; reflexivity.
  - destruct (negb (nonempty (TOKEN w)) || negb (nonempty (REPO w)));
      [eexists; reflexivity |].
    rewrite Hr, Hs. cbn [unpack2 bind].
    match goal with |- context [ci_runs w ?u ?t] =>
      destruct (ci_runs w u t) end; eexists; reflexivity.
Qed.

Lemma unpack2_ok (l : list string) (a b : string) :
  unpack2 l = Ok (a, b) -> l = [a; b].
Proof.
  destruct l as [| x [| y [| z l]]]; cbn; try discriminate.
  intros E. now injection E as <- <-.
Qed.

Lemma score_ci_returns_iff (w : World) :
  (exists r, score_ci w = Ok r) <-> identity_splits w.
Proof.
  split; [| apply score_ci_returns].
  intros [r Hr]. unfold identity_splits. revert Hr. open_score_ci.
  destruct (nonempty (TOKEN w)); [| now left].
  destruct (nonempty (REPO w)) eqn:En; [| right; now left].
  cbn [negb orb]. destruct (REPO w) as [name |]; [| discriminate En].
  destruct (unpack2 (str_split "/" name)) as [[owner repo] | e] eqn:Eu;
    cbn [bind]; [| discriminate].
  intros _. right. right. exists name, owner, repo.
  split; [reflexivity | now apply unpack2_ok].
Qed.

(** *** The security collector with the scanner *)

Lemma severity_read (issue : pyval) (sev : string) :
  severity_of issue = Some sev ->
  (s <- py_get issue "issue_severity" (PStr "") ;; py_lower s) = Ok sev.
Proof.
  unfold severity_of. destruct issue as [| | | | | | fields]; try discriminate.
  cbn [py_get bind].
  destruct (assoc "issue_severity" fields) as [[| | | | s | |] |];
    try discriminate; intros E; injection E as <-; reflexivity.
Qed.

Lemma add_points_shift (sev : string) (p : Q) :
  add_points sev p == p + add_points sev 0.
Proof.
  unfold add_points.
  destruct (String.eqb sev "low"); [lra |].
  destruct (String.eqb sev "medium"); [lra |].
  destruct (String.eqb sev "high"); lra.
Qed.

Lemma severity_penalty_cons (issue : pyval) (rest : list pyval) (sev : string) :
  severity_of issue = Some sev ->
  severity_penalty (issue :: rest) == add_points sev 0 + severity_penalty rest.
Proof.
  intros H. unfold severity_penalty, count_severity, add_points.
  cbn [filter]. rewrite H.
  destruct (String.eqb sev "low") eqn:El.
  - apply String.eqb_eq in El. subst sev. cbn [String.eqb Ascii.eqb Bool.eqb andb].
    cbn [List.length]. rewrite of_nat_S. lra.
  - destruct (String.eqb sev "medium") eqn:Em.
    + apply String.eqb_eq in Em. subst sev. cbn [String.eqb Ascii.eqb Bool.eqb andb].
      cbn [List.length]. rewrite of_nat_S. lra.
    + destruct (String.eqb sev "high") eqn:Eh.
      * cbn [List.length]. rewrite of_nat_S. lra.
      * lra.
Qed.

Lemma scan_issues_well_formed (issues : list pyval) (p : Q) :
  Forall well_formed_finding issues ->
  snd (scan_issues issues p) = None
  /\ fst (scan_issues issues p) == p + severity_penalty issues.
Proof.
  intros H. revert p. induction H as [| i issues [sev Hi] _ IH]; intros p.
  - cbn [scan_issues fst snd]. split; [reflexivity |].
    unfold severity_penalty, count_severity. cbn [filter List.length].
    change (of_nat 0) with 0. lra.
  - cbn [scan_issues]. rewrite (severity_read i sev Hi).
    destruct (IH (add_points sev p)) as [E1 E2]. split; [exact E1 |].
    rewrite E2, (severity_penalty_cons i issues sev Hi), (add_points_shift sev p).
    lra.
Qed.

(** When [check_output] returns the report of the scanner, that is when
    the scanner exits with status 0, and the report lists well-formed
    findings, the penalty is 0.5 per low finding, 2.0 per medium and 5.0
    per high, and the value is [max(0, 1 − penalty/10)]. *)
Theorem security_scanner_penalty
        (w : World) (out : string) (data : pyval) (issues : list pyval) :
  bandit w = Ok out ->
  json_loads out = Ok data ->
  py_get data "results" (PList []) = Ok (PList issues) ->
  Forall well_formed_finding issues ->
  exists penalty,
    evidence (score_security w) = [("penalty", PFloat penalty)]
    /\ penalty == severity_penalty issues
    /\ value (score_security w) == Qmax 0 (1 - penalty / 10)
    /\ 0 <= value (score_security w)
    /\ (10 < penalty -> value (score_security w) == 0)
    /\ (penalty == 6 -> value (score_security w) == 0.4).
Proof.
  intros Hb Hj Hr Hwf.
  open_score_security; open_bandit_penalty; unfold value, evidence.
  rewrite Hb. cbn [bind]. rewrite Hj. cbn [bind]. rewrite Hr. cbn [bind py_iter].
  destruct (scan_issues_well_formed issues 0.0 Hwf) as [E1 E2].
  destruct (scan_issues issues 0.0) as [p oe]. cbn [fst snd] in *. subst oe.
  exists p.
  assert (Hm : py_max 0.0 (1.0 - p / 10.0) == Qmax 0 (1 - p / 10)).
  { unfold py_max. destruct (Qlt_le_dec 0.0 (1.0 - p / 10.0)) as [Hlt | Hle].
    - rewrite Q.max_r; [literal_div; lra |]. literal_div. lra.
    - rewrite Q.max_l; [lra |]. literal_div. lra. }
  split; [reflexivity |].
  split; [rewrite E2; lra |].
  split; [exact Hm |].
  split; [eapply Qle_trans; [| apply py_max_ge_l]; lra |].
  split.
  - intros Hp. rewrite Hm. rewrite Q.max_l; [reflexivity |]. literal_div. lra.
  - intros Hp. rewrite Hm. rewrite Q.max_r; literal_div; lra.
Qed.

(** *** The security collector without the scanner *)

(** The working directory is a directory: reading it as a text file
    raises, in every world. *)
Lemma read_text_cwd (w : World) :
  read_text w "." = Raise (OSError "IsADirectoryError" ".").
Proof. reflexivity. Qed.

Lemma heuristic_penalty_unchanged (w : World) (p : Q) :
  heuristic_penalty w p = p.
Proof. unfold heuristic_penalty. now rewrite read_text_cwd. Qed.

(** Without the scanner the penalty stays 0, whatever the sources hold. *)
Lemma security_without_scanner (w : World) (e : exn) :
  bandit w = Raise e ->
  evidence (score_security w) = [("penalty", PFloat 0.0)]
  /\ value (score_security w) == 1.
Proof.
  intros Hb.
  open_score_security; open_bandit_penalty; unfold value, evidence.
  rewrite Hb. cbn [bind fst snd]. rewrite heuristic_penalty_unchanged.
  split; [reflexivity |].
  unfold py_max. destruct (Qlt_le_dec 0.0 (1.0 - 0.0 / 10.0)) as [H | H];
    literal_div; lra.
Qed.

(** C4.  In a repository without the scanner whose source calls [eval],
    the collector reports penalty 0 and value 1, not 2.0 and 0.8: the
    handler reads the working directory itself as a file, which raises,
    and no source text is scanned. *)
Theorem security_fallback_misses_eval :
  (exists e, bandit eval_repo = Raise e)
  /\ (exists code, read_text eval_repo "app.py" = Ok code
                   /\ contains "eval(" code = true)
  /\ evidence (score_security eval_repo) = [("penalty", PFloat 0.0)]
  /\ value (score_security eval_repo) == 1
  /\ ~ value (score_security eval_repo) == 0.8.
Proof.
  split; [eexists; reflexivity |].
  split; [eexists; split; reflexivity |].
  destruct (security_without_scanner eval_repo _ eq_refl) as [He Hv].
  split; [exact He |]. split; [exact Hv |].
  rewrite Hv. intros H. discriminate H.
Qed.

(** *** The CI collector *)

Lemma score_ci_unpack_error (w : World) (token name : string) (e : exn) :
  TOKEN w = Some token -> token <> "" ->
  REPO w = Some name -> name <> "" ->
  unpack2 (str_split "/" name) = Raise e ->
  score_ci w = Raise e.
Proof.
  intros Ht Hnt Hr Hnr Hu. open_score_ci.
  rewrite Ht, Hr. cbn [nonempty].
  apply String.eqb_neq in Hnt, Hnr. rewrite Hnt, Hnr. cbn [negb orb].
  rewrite Hu. reflexivity.
Qed.

(** Without a credential or a repository identity the value is 0.0 and
    the evidence a note. *)
Lemma score_ci_missing_config (w : World) :
  nonempty (TOKEN w) = false \/ nonempty (REPO w) = false ->
  score_ci w = Ok (0.0, [("note", PStr "no token/repo")]).
Proof.
  open_score_ci. intros [H | H]; rewrite H; [| rewrite orb_true_r]; reflexivity.
Qed.

(** With an identity of the form [owner/name], a request that fails gives
    the value 0.0 and the message of the exception as evidence. *)
Lemma score_ci_request_fails
      (w : World) (token name owner repo : string) (e : exn) :
  TOKEN w = Some token -> token <> "" ->
  REPO w = Some name -> str_split "/" name = [owner; repo] ->
  requests_get w ("https://api.github.com/repos/" ++ owner ++ "/" ++ repo
                  ++ "/actions/runs") token = Raise e ->
  score_ci w = Ok (0.0, [("error", PStr (str_exn e))]).
Proof.
  intros Ht Hnt Hr Hs Hg.
  assert (Hnr : name <> "") by (intros ->; discriminate Hs).
  open_score_ci. rewrite Ht, Hr. cbn [nonempty].
  apply String.eqb_neq in Hnt, Hnr. rewrite Hnt, Hnr. cbn [negb orb].
  rewrite Hs. cbn [unpack2 bind fst snd].
  open_ci_runs. rewrite Hg. reflexivity.
Qed.

(** C5.  With a token and the repository name [norepo], the CI collector
    raises [ValueError]: the name is unpacked into owner and repository
    before the [try] begins, so no value and no evidence is returned. *)
Theorem score_ci_raises_on_malformed_repo :
  TOKEN malformed_repo = Some "secret"
  /\ REPO malformed_repo = Some "norepo"
  /\ exists e, score_ci malformed_repo = Raise e
               /\ exn_type e = "ValueError".
Proof.
  split; [reflexivity |]. split; [reflexivity |].
  eexists. split.
  - apply (score_ci_unpack_error malformed_repo "secret" "norepo");
      try reflexivity; discriminate.
  - reflexivity.
Qed.

(** C10.  When the provider answers and the list of runs is empty (or
    absent), the CI collector returns 0.0 with [{"total_runs": 0}]; and
    whenever a success rate is returned, it is a quotient by a positive
    number of runs. *)
Theorem score_ci_no_runs
        (w : World) (token name owner repo body : string) (data : pyval) :
  TOKEN w = Some token -> token <> "" ->
  REPO w = Some name -> str_split "/" name = [owner; repo] ->
  requests_get w ("https://api.github.com/repos/" ++ owner ++ "/" ++ repo
                  ++ "/actions/runs") token = Ok body ->
  json_loads body = Ok data ->
  py_get data "workflow_runs" (PList []) = Ok (PList []) ->
  score_ci w = Ok (0.0, [("total_runs", PInt 0)])
  /\ (forall url tok r,
         ci_runs w url tok = Ok r ->
         r = (0.0, [("total_runs", PInt 0)])
         \/ exists total success : nat,
              (0 < total)%nat /\ (success <= total)%nat
              /\ r = (of_nat success / of_nat total,
                      [("total_runs", PInt (Z.of_nat total));
                       ("success", PInt (Z.of_nat success))])).
Proof.
  intros Ht Hnt Hr Hs Hg Hj Hw. split; [| apply ci_runs_shape].
  assert (Hnr : name <> "") by (intros ->; discriminate Hs).
  open_score_ci. rewrite Ht, Hr. cbn [nonempty].
  apply String.eqb_neq in Hnt, Hnr. rewrite Hnt, Hnr. cbn [negb orb].
  rewrite Hs. cbn [unpack2 bind fst snd].
  open_ci_runs. rewrite Hg. cbn [bind]. rewrite Hj. cbn [bind].
  rewrite Hw. reflexivity.
Qed.

(** *** Rounding *)





(** *** The tests collector with a coverage report *)

Lemma scan_reports_skip (w : World) (pre rest : list string) :
  Forall (passed_over w) pre ->
  scan_reports w (pre ++ rest) = scan_reports w rest.
Proof.
  induction 1 as [| q pre Hq _ IH]; [reflexivity |].
  step_scan_reports.
  destruct Hq as [Hq | [e Hq]].
  - now rewrite Hq.
  - rewrite Hq. now destruct (path_exists w q).
Qed.




(** *** The docs collector *)

(** C7.  When the README is absent or can be read, and every source
    file can be read, the docs collector returns 0.6 times the fraction of
    the four sections found in the README in lower case (0 without a
    README) plus 0.4 times the fraction of the source files whose first
    200 characters hold a docstring delimiter; with fractions 2/4 and 0.5
    the value is 0.5. *)
Theorem docs_weighted_fractions (w : World) :
  sources_readable w ->
  exists r,
    score_docs w = Ok r
    /\ value r == 0.6 * readme_fraction w + 0.4 * docstring_fraction w
    /\ (readme_fraction w == 2 / 4 -> docstring_fraction w == 0.5 ->
        value r == 0.5).
Proof.
  intros Hread.
  destruct (score_docs_returns w Hread) as [r Hr]. exists r.
  pose proof (score_docs_value w r Hr) as Hv.
  split; [exact Hr |]. split; [exact Hv |].
  intros H1 H2. rewrite Hv, H1, H2. reflexivity.
Qed.

Lemma has_doc_raises (w : World) (fs : list string) (f : string) (e : exn) :
  In f fs -> read_text w f = Raise e -> exists e', has_doc w fs = Raise e'.
Proof.
  intros Hin Hf. induction fs as [| g fs IH]; [destruct Hin |].
  cbn [has_doc]. destruct Hin as [-> | Hin].
  - unfold has_doc_at. rewrite Hf. cbn [bind]. eexists; reflexivity.
  - destruct (has_doc_at w g); cbn [bind]; [| eexists; reflexivity].
    destruct (IH Hin) as [e' ->]. cbn [bind]. eexists; reflexivity.
Qed.

(** A source file that cannot be read makes the docs collector raise. *)
Lemma score_docs_raises (w : World) (f : string) (e : exn) :
  In f (py_files w) -> read_text w f = Raise e ->
  exists e', score_docs w = Raise e'.
Proof.
  intros Hin Hf. unfold score_docs.
  destruct (readme_score w); cbn [bind]; [| eexists; reflexivity].
  unfold doc_ratio. destruct (py_files w) as [| g fs]; [destruct Hin |].
  destruct (has_doc_raises w (g :: fs) f e Hin Hf) as [e' ->].
  cbn [bind]. eexists; reflexivity.
Qed.

(** The loop of the dead-code collector passes over the same file. *)
Lemma total_lines_unreadable : total_lines unreadable = 0%nat.
Proof. reflexivity. Qed.

(** C8.  In a repository whose source file [a.py] cannot be opened, the
    docs collector raises [PermissionError] instead of counting the file
    as one without docstring: it returns no value. *)
Theorem score_docs_fails_on_unreadable_file :
  In "a.py" (py_files unreadable)
  /\ has_delimiter unreadable "a.py" = false
  /\ exists e, score_docs unreadable = Raise e
               /\ exn_type e = "PermissionError".
Proof.
  split; [cbn; tauto |]. split; [reflexivity |].
  eexists. split; reflexivity.
Qed.

(** *** The dead-code collector *)

Lemma py_min_one (r : Q) :
  py_min r 1.0 == if Qlt_le_dec 1 r then 1 else r.
Proof.
  unfold py_min. destruct (Qlt_le_dec 1.0 r), (Qlt_le_dec 1 r); lra.
Qed.

(** When [check_output] returns the output of the detector, that is
    when the detector exits with status 0, the dead ratio is
    [min((findings × 10) / total_lines, 1.0)] and the value is 1 minus
    that ratio (with no line at all the divisor is 1); when the call
    raises, the ratio is 0 and the value is 1. *)
Theorem dead_code_ratio (w : World) :
  (forall out, vulture w = Ok out ->
     exists dead_ratio,
       value (score_dead_code w) == 1 - dead_ratio
       /\ evidence (score_dead_code w)
          = [("dead_ratio", PFloat (py_round dead_ratio 3))]
       /\ ((0 < total_lines w)%nat ->
           dead_ratio
           == dead_ratio_spec (flagged_lines out) (total_lines w))
       /\ (total_lines w = 0%nat ->
           dead_ratio == dead_ratio_spec (flagged_lines out) 1))
  /\ (forall e, vulture w = Raise e ->
        value (score_dead_code w) == 1
        /\ evidence (score_dead_code w) = [("dead_ratio", PFloat 0)]).
Proof.
  split.
  - intros out Hv.
    unfold score_dead_code, vulture_ratio, value, evidence.
    rewrite Hv. cbn [bind].
    rewrite py_div_pos by (apply of_nat_pos; lia). cbn [bind fst snd].
    eexists. split; [| split; [reflexivity | split]].
    + lra.
    + intros Ht. rewrite py_min_one. unfold dead_ratio_spec.
      replace (Nat.max (total_lines w) 1) with (total_lines w) by lia.
      reflexivity.
    + intros Ht. rewrite py_min_one, Ht. reflexivity.
  - intros e Hv.
    unfold score_dead_code, vulture_ratio, value, evidence.
    rewrite Hv. cbn [bind fst snd]. split; [lra | reflexivity].
Qed.

End Properties.

(** ** The theorems at the example worlds *)

Lemma combine_in_range_witness :
  (forall k, In k (map fst WEIGHTS) ->
             exists r, assoc k half_scores = Some r /\ in_unit (value r))
  /\ exists final_score,
       combine half_scores = Ok final_score
       /\ final_score == 100 * weighted_sum half_scores
       /\ final_score == 61.5
       /\ 0 <= final_score /\ final_score <= 100.
Proof.
  assert (H : forall k, In k (map fst WEIGHTS) ->
                        exists r, assoc k half_scores = Some r
                                  /\ in_unit (value r)).
  { intros k Hk. unfold WEIGHTS in Hk. cbn [map fst] in Hk.
    repeat (destruct Hk as [<- | Hk];
            [eexists; split; [reflexivity | split; cbn; lra] |]).
    destruct Hk. }
  split; [exact H |].
  destruct (combine_in_range half_scores H) as (_ & s & Hs & Hw & Hlo & Hhi).
  exists s. split; [exact Hs |]. split; [exact Hw |].
  split; [| split; assumption].
  rewrite Hw. vm_compute. reflexivity.
Defined.

Lemma security_scanner_penalty_witness :
  bandit scanned = Ok "bandit: low, low, high"
  /\ Forall well_formed_finding
            [finding "LOW"; finding "LOW"; finding "HIGH"]
  /\ exists penalty,
       evidence (score_security example_json scanned)
       = [("penalty", PFloat penalty)]
       /\ penalty == 6
       /\ value (score_security example_json scanned) == 0.4.
Proof.
  assert (Hwf : Forall well_formed_finding
                       [finding "LOW"; finding "LOW"; finding "HIGH"])
    by (repeat constructor; eexists; reflexivity).
  split; [reflexivity |]. split; [exact Hwf |].
  destruct (security_scanner_penalty
              example_json scanned "bandit: low, low, high"
              (PDict [("results",
                       PList [finding "LOW"; finding "LOW"; finding "HIGH"])])
              [finding "LOW"; finding "LOW"; finding "HIGH"]
              eq_refl eq_refl eq_refl Hwf)
    as (p & He & Hp & _ & _ & _ & H6).
  assert (Hsix : p == 6) by (rewrite Hp; vm_compute; reflexivity).
  exists p. split; [exact He |]. split; [exact Hsix |]. exact (H6 Hsix).
Defined.


Lemma docs_weighted_fractions_witness :
  readme_fraction documented == 2 / 4
  /\ docstring_fraction documented == 0.5
  /\ exists r, score_docs documented = Ok r /\ value r == 0.5.
Proof.
  assert (H1 : readme_fraction documented == 2 / 4) by (vm_compute; reflexivity).
  assert (H2 : docstring_fraction documented == 0.5) by (vm_compute; reflexivity).
  split; [exact H1 |]. split; [exact H2 |].
  destruct (docs_weighted_fractions documented) as (r & Hr & _ & Hhalf).
  - split; [right; eexists; reflexivity |].
    repeat constructor; eexists; reflexivity.
  - exists r. split; [exact Hr | exact (Hhalf H1 H2)].
Defined.

Lemma dead_code_ratio_witness :
  total_lines vultured = 25%nat
  /\ value (score_dead_code vultured) == 0.6
  /\ value (score_dead_code bare) == 1
  /\ evidence (score_dead_code bare) = [("dead_ratio", PFloat 0)].
Proof.
  split; [reflexivity |].
  destruct (dead_code_ratio vultured) as [Hrun _].
  destruct (Hrun "a.py:3: unused variable 'x' (60% confidence)" eq_refl)
    as (d & Hv & _ & Hd & _).
  assert (Hpos : (0 < total_lines vultured)%nat) by (vm_compute; lia).
  split.
  - rewrite Hv, (Hd Hpos). vm_compute. reflexivity.
  - destruct (dead_code_ratio bare) as [_ Hnone].
    exact (Hnone _ eq_refl).
Defined.

Lemma score_ci_no_runs_witness :
  TOKEN no_runs = Some "secret"
  /\ REPO no_runs = Some "octo/tool"
  /\ score_ci example_json no_runs = Ok (0.0, [("total_runs", PInt 0)]).
Proof.
  split; [reflexivity |]. split; [reflexivity |].
  refine (proj1 (score_ci_no_runs
                   example_json no_runs "secret" "octo/tool" "octo" "tool"
                   "github: no runs"
                   (PDict [("total_count", PInt 0);
                           ("workflow_runs", PList [])])
                   eq_refl _ eq_refl eq_refl eq_refl eq_refl eq_refl)).
  discriminate.
Defined.

(** Twenty-seven successful runs out of thirty give 0.9. *)
Lemma score_ci_thirty_runs :
  exists r, score_ci example_json thirty_runs = Ok r
            /\ value r == 0.9
            /\ evidence r = [("total_runs", PInt 30); ("success", PInt 27)].
Proof.
  exists (of_nat 27 / of_nat 30,
          [("total_runs", PInt 30); ("success", PInt 27)]).
  split; [vm_compute; reflexivity |]. split; [vm_compute |]; reflexivity.
Qed.

(** ** Further behaviour of the collectors *)

Ltac open_instrumented_pct := unfold instrumented_pct.
Ltac open_reported_findings := unfold reported_findings.

Section Behaviour.

Variable ET_fromstring : string -> Exc element.
Variable json_loads : string -> Exc pyval.
Variable float_of_str : string -> Exc Q.

Local Notation score_tests := (score_tests ET_fromstring float_of_str).
Local Notation score_security := (score_security json_loads).
Local Notation score_ci := (score_ci json_loads).
Local Notation ci_runs := (ci_runs json_loads).
Local Notation bandit_penalty := (bandit_penalty json_loads).
Local Notation reported_findings := (reported_findings json_loads).
Local Notation report_pct := (report_pct ET_fromstring float_of_str).
Local Notation scan_reports := (scan_reports ET_fromstring float_of_str).
Local Notation instrumented_pct := (instrumented_pct ET_fromstring float_of_str).
Local Notation ET_parse := (ET_parse ET_fromstring).
Local Notation passed_over := (passed_over ET_fromstring float_of_str).

(** *** score_structure *)

Lemma found_count_filter (P : string -> bool) (l : list string) (n : nat) :
  fold_left (fun found f => if P f then S found else found) l n
  = (n + List.length (filter P l))%nat.
Proof.
  revert n. induction l as [| f l IH]; intros n; cbn [fold_left filter].
  - cbn. lia.
  - rewrite IH. destruct (P f); cbn [List.length]; lia.
Qed.

Lemma filter_all {A : Type} (P : A -> bool) (l : list A) :
  List.length (filter P l) = List.length l <->
  (forall x, In x l -> P x = true).
Proof.
  induction l as [| a l IH]; cbn [filter List.length In].
  - split; [intros _ x [] | reflexivity].
  - pose proof (filter_length_le P l) as Hle.
    destruct (P a) eqn:Ea; cbn [List.length].
    + split.
      * intros E x [<- | Hx]; [exact Ea | apply IH; [lia | exact Hx]].
      * intros H. f_equal. apply IH. intros x Hx. apply H. now right.
    + split; [lia |].
      intros H. specialize (H a (or_introl eq_refl)). congruence.
Qed.

Lemma filter_none {A : Type} (P : A -> bool) (l : list A) :
  List.length (filter P l) = 0%nat <->
  (forall x, In x l -> P x = false).
Proof.
  induction l as [| a l IH]; cbn [filter List.length In].
  - split; [intros _ x [] | reflexivity].
  - destruct (P a) eqn:Ea; cbn [List.length].
    + split; [lia |].
      intros H. specialize (H a (or_introl eq_refl)). congruence.
    + split.
      * intros E x [<- | Hx]; [exact Ea | now apply IH].
      * intros H. apply IH. intros x Hx. apply H. now right.
Qed.

Lemma of_nat_eq (n m : nat) : of_nat n == of_nat m <-> n = m.
Proof.
  unfold of_nat, Qeq. cbn [Qnum Qden inject_Z]. lia.
Qed.

(** X1.  The structure collector reports how many of the six required
    artifacts exist and returns that count over six: the value is 1
    exactly when all six exist and 0 exactly when none does. *)
Theorem structure_counts_artifacts (w : World) :
  evidence (score_structure w)
  = [("found_count", PInt (Z.of_nat (present_count w)));
     ("required", PInt 6)]
  /\ value (score_structure w) == of_nat (present_count w) / 6
  /\ (value (score_structure w) == 1
      <-> forall f, In f required -> path_exists w f = true)
  /\ (value (score_structure w) == 0
      <-> forall f, In f required -> path_exists w f = false).
Proof.
  unfold score_structure, value, evidence, int_div. cbn [fst snd].
  rewrite found_count_filter. cbn [Nat.add]. fold (present_count w).
  change (inject_Z (Z.of_nat (present_count w))) with (of_nat (present_count w)).
  change (inject_Z (Z.of_nat (List.length required))) with (of_nat 6).
  assert (Hdiv : forall k : nat, of_nat k / of_nat 6 == of_nat k * (1 # 6)).
  { intros k. unfold Qdiv. reflexivity. }
  split; [reflexivity |].
  split; [reflexivity |].
  split.
  - rewrite <- (filter_all (path_exists w) required).
    fold (present_count w). change (List.length required) with 6%nat.
    rewrite <- of_nat_eq, Hdiv. change (of_nat 6) with 6. split; intros H; lra.
  - rewrite <- (filter_none (path_exists w) required).
    fold (present_count w).
    rewrite <- of_nat_eq, Hdiv. change (of_nat 0) with 0. split; intros H; lra.
Qed.

(** *** score_tests *)

Lemma scan_reports_none (w : World) (ps : list string) :
  Forall (passed_over w) ps -> scan_reports w ps = None.
Proof.
  intros H. rewrite <- (app_nil_r ps).
  now rewrite (scan_reports_skip ET_fromstring float_of_str w ps [] H).
Qed.

Lemma zero_pct_result :
  py_min (py_max (0.0 / 100.0) 0.0) 1.0 == 0 /\ py_round 0.0 2 = 0.
Proof. split; [vm_compute |]; reflexivity. Qed.

(** X2.  When no candidate report can be used and the repository has
    neither a [tests] entry nor files matching [test_*] or [*/tests/*],
    the tests collector returns 0 with a coverage of 0, and the coverage
    tool plays no part. *)
Theorem tests_nothing_to_measure (w : World) :
  Forall (passed_over w) (cov_files w) ->
  tests_present w = false ->
  value (score_tests w) == 0
  /\ evidence (score_tests w) = [("coverage_pct", PFloat 0)].
Proof.
  intros Hskip Hnone. open_score_tests; unfold value, evidence.
  rewrite (scan_reports_none w _ Hskip), Hnone. cbn [fst snd].
  destruct zero_pct_result as [Hv Hr]. rewrite Hr. split; [exact Hv | reflexivity].
Qed.

(** X3.  When no candidate report can be used and tests are present, a
    failure of the instrumented run (the run itself, the writing of the
    report, or its parsing) gives the value 0 with a coverage of 0. *)
Theorem tests_instrumentation_fails (w : World) :
  Forall (passed_over w) (cov_files w) ->
  tests_present w = true ->
  (exists e, coverage_run w = Raise e)
  \/ (exists e, coverage_xml w = Raise e)
  \/ (exists text e, coverage_xml w = Ok text /\ ET_fromstring text = Raise e) ->
  value (score_tests w) == 0
  /\ evidence (score_tests w) = [("coverage_pct", PFloat 0)].
Proof.
  intros Hskip Htests Hfail. open_score_tests; unfold value, evidence.
  rewrite (scan_reports_none w _ Hskip), Htests.
  assert (E : exists e, instrumented_pct w = Raise e).
  { open_instrumented_pct.
    destruct (coverage_run w) as [[] | e0]; cbn [bind]; [| eexists; reflexivity].
    destruct Hfail as [[e He] | [[e He] | (text & e & Ht & He)]].
    - discriminate He.
    - rewrite He. eexists; reflexivity.
    - rewrite Ht. cbn [bind]. rewrite He. eexists; reflexivity. }
  destruct E as [e ->]. cbn [fst snd].
  destruct zero_pct_result as [Hv Hr]. rewrite Hr. split; [exact Hv | reflexivity].
Qed.

(** X4.  When no candidate report can be used, tests are present and
    the instrumented run succeeds, the value is the [line-rate] of the
    root of the report it wrote, clamped to [[0,1]]; a root without that
    attribute counts as the rate ["0"]. *)
Theorem tests_instrumented_rate
        (w : World) (text : string) (root : element) (r : Q) :
  Forall (passed_over w) (cov_files w) ->
  tests_present w = true ->
  coverage_run w = Ok tt ->
  coverage_xml w = Ok text ->
  ET_fromstring text = Ok root ->
  float_of_str (match assoc "line-rate" (attrib_of root) with
                | Some s => s
                | None => "0"
                end) = Ok r ->
  value (score_tests w) == clamp01 r
  /\ evidence (score_tests w)
     = [("coverage_pct", PFloat (py_round (r * 100) 2))].
Proof.
  intros Hskip Htests Hrun Hxml Hroot Hrate.
  open_score_tests; unfold value, evidence.
  rewrite (scan_reports_none w _ Hskip), Htests.
  open_instrumented_pct. rewrite Hrun. cbn [bind]. rewrite Hxml. cbn [bind].
  rewrite Hroot. cbn [bind]. rewrite Hrate. cbn [bind fst snd].
  split; [| reflexivity].
  rewrite clamp_min_max. apply clamp01_compat. literal_div. lra.
Qed.

(** X5.  A report whose root has no [line-rate] is searched for the
    first nested [coverage] element; when that element carries the
    attribute, its rate clamped to [[0,1]] is the value. *)
Theorem tests_nested_rate
        (w : World) (pre post : list string) (p s : string)
        (root cov : element) (r : Q) :
  cov_files w = (pre ++ p :: post)%list ->
  Forall (passed_over w) pre ->
  path_exists w p = true ->
  ET_parse w p = Ok root ->
  assoc "line-rate" (attrib_of root) = None ->
  find_descendant "coverage" root = Some cov ->
  assoc "line-rate" (attrib_of cov) = Some s ->
  float_of_str s = Ok r ->
  value (score_tests w) == clamp01 r
  /\ evidence (score_tests w)
     = [("coverage_pct", PFloat (py_round (r * 100) 2))].
Proof.
  intros Hc Hpre Hex Hp Hroot Hfind Hcov Hf.
  open_score_tests; unfold value, evidence.
  rewrite Hc, (scan_reports_skip ET_fromstring float_of_str w pre (p :: post) Hpre).
  step_scan_reports. rewrite Hex.
  open_report_pct. rewrite Hp. cbn [bind]. rewrite Hroot, Hfind, Hcov, Hf.
  cbn [bind fst snd].
  split; [| reflexivity].
  rewrite clamp_min_max. apply clamp01_compat. literal_div. lra.
Qed.

(** X6.  The scan of the candidate reports ends at the first one that is
    read without exception, also when it holds no rate: later candidates
    are not consulted, and without tests the value is 0. *)
Theorem tests_report_without_rate
        (w : World) (pre post : list string) (p : string) (root : element) :
  cov_files w = (pre ++ p :: post)%list ->
  Forall (passed_over w) pre ->
  path_exists w p = true ->
  ET_parse w p = Ok root ->
  assoc "line-rate" (attrib_of root) = None ->
  (forall cov, find_descendant "coverage" root = Some cov ->
               assoc "line-rate" (attrib_of cov) = None) ->
  tests_present w = false ->
  value (score_tests w) == 0
  /\ evidence (score_tests w) = [("coverage_pct", PFloat 0)].
Proof.
  intros Hc Hpre Hex Hp Hroot Hnested Hnone.
  open_score_tests; unfold value, evidence.
  rewrite Hc, (scan_reports_skip ET_fromstring float_of_str w pre (p :: post) Hpre).
  step_scan_reports. rewrite Hex.
  assert (E : report_pct w p = Ok None).
  { open_report_pct. rewrite Hp. cbn [bind]. rewrite Hroot.
    destruct (find_descendant "coverage" root) as [cov |]; [| reflexivity].
    now rewrite (Hnested cov eq_refl). }
  rewrite E, Hnone. cbn [fst snd].
  destruct zero_pct_result as [Hv Hr]. rewrite Hr. split; [exact Hv | reflexivity].
Qed.

(** *** score_dead_code *)

Lemma colon_not_blank (l : string) :
  contains ":" l = true -> strip_nonempty l = true.
Proof.
  unfold strip_nonempty.
  induction l as [| c l IH]; cbn [contains is_prefix list_ascii_of_string existsb].
  - discriminate.
  - destruct (Ascii.eqb ":" c) eqn:Ec.
    + apply Ascii.eqb_eq in Ec. subst c. reflexivity.
    + cbn [andb orb]. intros H. rewrite (IH H). apply orb_true_r.
Qed.

(** X7.  The findings the dead-code collector counts are exactly the
    lines of the detector's output that contain a colon: the test for a
    non-blank line never excludes one. *)
Theorem flagged_lines_colon (out : string) :
  flagged_lines out
  = List.length (filter (contains ":") (splitlines out)).
Proof.
  unfold flagged_lines. f_equal. apply filter_ext. intros l.
  destruct (contains ":" l) eqn:E; [| apply andb_false_r].
  now rewrite (colon_not_blank l E).
Qed.

Lemma quotient_zero (a b : Q) : 0 < b -> (a / b == 0 <-> a == 0).
Proof.
  intros Hb. pose proof (Qmult_div_r a b ltac:(lra)) as E. split; intros H.
  - rewrite <- E, H. ring.
  - rewrite <- E in H. destruct (Qmult_integral _ _ H) as [H' | H']; [lra | exact H'].
Qed.

Lemma quotient_ge_one (a b : Q) : 0 < b -> (1 <= a / b <-> b <= a).
Proof.
  intros Hb. pose proof (Qmult_div_r a b ltac:(lra)) as E.
  rewrite <- (Qmult_le_l 1 (a / b) b Hb), E, Qmult_1_r. reflexivity.
Qed.

Lemma dead_code_endpoints_returned (w : World) (out : string) :
  vulture w = Ok out ->
  (value (score_dead_code w) == 1 <-> flagged_lines out = 0%nat)
  /\ (value (score_dead_code w) == 0
      <-> (Nat.max (total_lines w) 1 <= flagged_lines out * 10)%nat).
Proof.
  intros Hv. unfold score_dead_code, vulture_ratio, value. rewrite Hv.
  cbn [bind].
  set (f := flagged_lines out). set (t := Nat.max (total_lines w) 1).
  assert (Ht : 0 < of_nat t) by (apply of_nat_pos; unfold t; lia).
  rewrite (py_div_pos _ _ Ht). cbn [bind fst].
  pose proof (quotient_zero (of_nat (f * 10)) (of_nat t) Ht) as Hz.
  pose proof (quotient_ge_one (of_nat (f * 10)) (of_nat t) Ht) as Hg.
  assert (Hnn : 0 <= of_nat (f * 10) / of_nat t).
  { apply Qle_shift_div_l; [exact Ht |]. rewrite Qmult_0_l. apply of_nat_nonneg. }
  assert (Hzero : of_nat (f * 10) / of_nat t == 0 <-> f = 0%nat).
  { rewrite Hz. change 0 with (of_nat 0). rewrite of_nat_eq. lia. }
  assert (Hone : 1 <= of_nat (f * 10) / of_nat t <-> (t <= f * 10)%nat).
  { rewrite Hg. unfold of_nat, Qle. cbn [Qnum Qden inject_Z]. lia. }
  clear Hz Hg.
  set (q := of_nat (f * 10) / of_nat t) in *.
  unfold py_min.
  destruct (Qlt_le_dec 1.0 q) as [Hgt | Hle].
  - split.
    + split; [intros H; lra |].
      intros Hf. apply Hzero in Hf. lra.
    + split; [| intros _; lra].
      intros _. apply Hone. lra.
  - split.
    + split.
      * intros H. apply Hzero. lra.
      * intros Hf. apply Hzero in Hf. lra.
    + split.
      * intros H. apply Hone. lra.
      * intros H. apply Hone in H. lra.
Qed.

(** X8.  In every world the dead-code value is 1 exactly when the call of
    the detector raises (it is missing, or it exits with a status other
    than 0) or its output has no line with a colon; and 0 exactly when
    the call returns an output in which ten times the number of such
    lines reaches the number of lines read (at least 1) of the source
    files. *)
Theorem dead_code_endpoints (w : World) :
  (value (score_dead_code w) == 1
   <-> (exists e, vulture w = Raise e)
       \/ (exists out, vulture w = Ok out /\ flagged_lines out = 0%nat))
  /\ (value (score_dead_code w) == 0
      <-> exists out,
            vulture w = Ok out
            /\ (Nat.max (total_lines w) 1 <= flagged_lines out * 10)%nat).
Proof.
  destruct (vulture w) as [out | e] eqn:Ev.
  - destruct (dead_code_endpoints_returned w out Ev) as [H1 H0]. split.
    + rewrite H1. split.
      * intros Hf. right. now exists out.
      * intros [[e He] | (out' & Ho & Hf)]; [discriminate He |].
        apply Ok_inj in Ho. now subst out'.
    + rewrite H0. split.
      * intros Hf. now exists out.
      * intros (out' & Ho & Hf). apply Ok_inj in Ho. now subst out'.
  - assert (Hv : value (score_dead_code w) == 1).
    { unfold score_dead_code, vulture_ratio, value. rewrite Ev.
      cbn [bind fst]. lra. }
    split.
    + split; [intros _; left; now exists e | intros _; exact Hv].
    + split; [intros H; rewrite Hv in H; discriminate H |].
      intros (out & Ho & _). discriminate Ho.
Qed.

(** *** score_security *)

Lemma severity_unread (issue : pyval) :
  severity_of issue = None ->
  exists e, (s <- py_get issue "issue_severity" (PStr "") ;; py_lower s)
            = Raise e.
Proof.
  unfold severity_of.
  destruct issue as [| | | | | | fields]; cbn [py_get bind];
    try (intros _; eexists; reflexivity).
  destruct (assoc "issue_severity" fields) as [[| | | | s | |] |];
    cbn [py_lower]; try discriminate; intros _; eexists; reflexivity.
Qed.

Lemma scan_issues_prefix (issues : list pyval) (p : Q) :
  fst (scan_issues issues p)
  == p + severity_penalty (well_formed_prefix issues).
Proof.
  assert (Hnil : severity_penalty [] == 0).
  { unfold severity_penalty, count_severity. cbn [filter List.length].
    change (of_nat 0) with 0. lra. }
  revert p. induction issues as [| i issues IH]; intros p;
    cbn [scan_issues well_formed_prefix].
  - cbn [fst]. rewrite Hnil. lra.
  - destruct (severity_of i) as [sev |] eqn:Ei.
    + rewrite (severity_read i sev Ei), IH.
      rewrite (severity_penalty_cons i _ sev Ei), (add_points_shift sev p). lra.
    + destruct (severity_unread i Ei) as [e ->]. cbn [fst]. rewrite Hnil. lra.
Qed.

(** X9.  In every world the penalty of the security collector is the
    severity-weighted sum over the findings that come before the first
    malformed one (none when the scanner or its report fails): what was
    added before an exception is kept, the later findings are dropped
    and the handler adds nothing. *)
Theorem security_penalty_prefix (w : World) :
  exists penalty,
    evidence (score_security w) = [("penalty", PFloat penalty)]
    /\ penalty == severity_penalty (well_formed_prefix (reported_findings w))
    /\ value (score_security w) == Qmax 0 (1 - penalty / 10).
Proof.
  open_score_security; open_bandit_penalty; open_reported_findings.
  unfold value, evidence.
  set (m := out <- bandit w ;; data <- json_loads out ;;
            results <- py_get data "results" (PList []) ;; py_iter results).
  assert (Hmax : forall p, py_max 0.0 (1.0 - p / 10.0) == Qmax 0 (1 - p / 10)).
  { intros p. unfold py_max.
    destruct (Qlt_le_dec 0.0 (1.0 - p / 10.0)) as [Hlt | Hle].
    - rewrite Q.max_r; [literal_div; lra |]. literal_div. lra.
    - rewrite Q.max_l; [lra |]. literal_div. lra. }
  assert (Hnil : severity_penalty [] == 0).
  { unfold severity_penalty, count_severity. cbn [filter List.length].
    change (of_nat 0) with 0. lra. }
  destruct m as [issues | e].
  - pose proof (scan_issues_prefix issues 0.0) as Hp.
    destruct (scan_issues issues 0.0) as [p [e |]]; cbn [fst snd] in *.
    + rewrite heuristic_penalty_unchanged. exists p.
      split; [reflexivity |]. split; [rewrite Hp; lra | apply Hmax].
    + exists p. split; [reflexivity |]. split; [rewrite Hp; lra | apply Hmax].
  - cbn [fst snd well_formed_prefix]. rewrite heuristic_penalty_unchanged.
    exists 0.0. split; [reflexivity |]. split; [rewrite Hnil; lra | apply Hmax].
Qed.

(** *** score_docs *)

Lemma doc_ratio_evidence (w : World) (dr : Q * pyval) :
  doc_ratio w = Ok dr ->
  (py_files w = [] -> snd dr = PInt 0)
  /\ (py_files w <> [] ->
      snd dr = PFloat (py_round (docstring_fraction w) 2)).
Proof.
  unfold doc_ratio, docstring_fraction.
  destruct (py_files w) as [| f fs].
  - intros E. apply Ok_inj in E. subst dr. split; [reflexivity | congruence].
  - destruct (has_doc w (f :: fs)) as [n | e] eqn:En; cbn [bind]; [| discriminate].
    apply has_doc_spec in En. subst n.
    rewrite py_div_pos by (apply of_nat_pos; cbn; lia). cbn [bind].
    intros E. apply Ok_inj in E. subst dr. split; [discriminate | reflexivity].
Qed.

Lemma scan_sections_details (text : string) :
  snd (scan_sections (lower text))
  = map (fun s => (s, PBool (found_ignoring_case text s))) sections.
Proof. reflexivity. Qed.

(** X10.  The evidence of the docs collector has two entries: under
    [readme_sections] one boolean per expected section, in the order
    installation, usage, license, contributing (an empty dictionary
    without a README), and under [doc_ratio] the docstring fraction
    rounded to 2 decimals (the integer 0 without any source file). *)
Theorem docs_evidence (w : World) (r : MetricResult) :
  score_docs w = Ok r ->
  exists details ratio,
    evidence r = [("readme_sections", PDict details); ("doc_ratio", ratio)]
    /\ (path_exists w "README.md" = false -> details = [])
    /\ (forall text,
           read_text w "README.md" = Ok text ->
           details
           = map (fun s => (s, PBool (found_ignoring_case text s))) sections)
    /\ (py_files w = [] -> ratio = PInt 0)
    /\ (py_files w <> [] ->
        ratio = PFloat (py_round (docstring_fraction w) 2)).
Proof.
  unfold score_docs.
  destruct (readme_score w) as [rs | e] eqn:Ers; cbn [bind]; [| discriminate].
  destruct (doc_ratio w) as [dr | e] eqn:Edr; cbn [bind]; [| discriminate].
  intros E. apply Ok_inj in E. subst r. unfold evidence. cbn [snd].
  exists (snd rs), (snd dr). split; [reflexivity |].
  destruct (doc_ratio_evidence w dr Edr) as [H0 H1].
  split; [| split; [| split; assumption]].
  - intros Hno. unfold readme_score in Ers. rewrite Hno in Ers.
    apply Ok_inj in Ers. now subst rs.
  - intros text Ht. unfold readme_score in Ers.
    assert (Hex : path_exists w "README.md" = true).
    { unfold path_exists. unfold read_text in Ht.
      now destruct (lookup_path w "README.md"). }
    rewrite Hex, Ht in Ers. cbn [bind] in Ers.
    apply Ok_inj in Ers. subst rs. cbn [snd]. apply scan_sections_details.
Qed.

(** X11.  A [README.md] that exists but is a directory, or cannot be
    opened, makes the docs collector raise: its existence is tested, its
    reading is not guarded. *)
Theorem docs_readme_unreadable (w : World) :
  (exists es, lookup_path w "README.md" = Some (Dir es))
  \/ lookup_path w "README.md" = Some (File None) ->
  exists e, score_docs w = Raise e
            /\ (exn_type e = "IsADirectoryError"
                \/ exn_type e = "PermissionError").
Proof.
  intros H. unfold score_docs, readme_score, path_exists, read_text.
  destruct H as [[es ->] | ->]; cbn [bind]; eexists; split;
    try reflexivity; [left | right]; reflexivity.
Qed.

(** *** score_ci *)

Lemma count_success_objects (runs : list pyval) :
  forallb is_object runs = true -> count_success runs = Ok (successes runs).
Proof.
  unfold successes.
  induction runs as [| run runs IH]; cbn [forallb count_success filter];
    [reflexivity |].
  intros H. apply andb_prop in H. destruct H as [Hrun Hruns].
  destruct run as [| | | | | | d]; try discriminate Hrun.
  cbn [py_get bind]. rewrite (IH Hruns). cbn [bind].
  destruct (assoc "conclusion" d) as [c |]; cbn [eq_str];
    [destruct (eq_str c "success") |]; reflexivity.
Qed.

Lemma count_success_raises (runs : list pyval) (item : pyval) :
  In item runs -> is_object item = false ->
  exists e, count_success runs = Raise e.
Proof.
  intros Hin Hitem. induction runs as [| run runs IH]; [destruct Hin |].
  cbn [count_success]. destruct Hin as [-> | Hin].
  - destruct item; try discriminate Hitem; cbn [py_get bind];
      eexists; reflexivity.
  - destruct (py_get run "conclusion" PNone); cbn [bind];
      [| eexists; reflexivity].
    destruct (IH Hin) as [e ->]. cbn [bind]. eexists; reflexivity.
Qed.

Lemma score_ci_enters_try
      (w : World) (token name owner repo : string) :
  TOKEN w = Some token -> token <> "" ->
  REPO w = Some name -> str_split "/" name = [owner; repo] ->
  score_ci w
  = match ci_runs w ("https://api.github.com/repos/" ++ owner ++ "/" ++ repo
                     ++ "/actions/runs") token with
    | Ok r => Ok r
    | Raise e => Ok (0.0, [("error", PStr (str_exn e))])
    end.
Proof.
  intros Ht Hnt Hr Hs.
  assert (Hnr : name <> "") by (intros ->; discriminate Hs).
  open_score_ci. rewrite Ht, Hr. cbn [nonempty].
  apply String.eqb_neq in Hnt, Hnr. rewrite Hnt, Hnr. cbn [negb orb].
  rewrite Hs. reflexivity.
Qed.

(** X12.  When the provider answers with a non-empty list of runs, each
    a JSON object, the CI value is the number of runs whose conclusion is
    [success] over the number of runs, and both counts are the
    evidence. *)
Theorem ci_success_rate
        (w : World) (token name owner repo body : string)
        (data : pyval) (runs : list pyval) :
  TOKEN w = Some token -> token <> "" ->
  REPO w = Some name -> str_split "/" name = [owner; repo] ->
  requests_get w ("https://api.github.com/repos/" ++ owner ++ "/" ++ repo
                  ++ "/actions/runs") token = Ok body ->
  json_loads body = Ok data ->
  py_get data "workflow_runs" (PList []) = Ok (PList runs) ->
  runs <> [] ->
  forallb is_object runs = true ->
  score_ci w
  = Ok (of_nat (successes runs) / of_nat (List.length runs),
        [("total_runs", PInt (Z.of_nat (List.length runs)));
         ("success", PInt (Z.of_nat (successes runs)))]).
Proof.
  intros Ht Hnt Hr Hs Hg Hj Hw Hne Hobj.
  rewrite (score_ci_enters_try w token name owner repo Ht Hnt Hr Hs).
  open_ci_runs. rewrite Hg. cbn [bind]. rewrite Hj. cbn [bind]. rewrite Hw.
  cbn [bind py_len py_iter].
  assert (Htruthy : truthy (PList runs) = true)
    by (destruct runs; [congruence | reflexivity]).
  rewrite Htruthy. cbn [negb]. rewrite (count_success_objects runs Hobj).
  cbn [bind].
  rewrite py_div_pos; [reflexivity |].
  apply of_nat_pos. destruct runs; [congruence | cbn; lia].
Qed.

(** X13.  One run of the answer that is not a JSON object voids the
    whole metric: the value is 0.0 and the evidence is the message of the
    exception, whatever the other runs say. *)
Theorem ci_malformed_run
        (w : World) (token name owner repo body : string)
        (data item : pyval) (runs : list pyval) :
  TOKEN w = Some token -> token <> "" ->
  REPO w = Some name -> str_split "/" name = [owner; repo] ->
  requests_get w ("https://api.github.com/repos/" ++ owner ++ "/" ++ repo
                  ++ "/actions/runs") token = Ok body ->
  json_loads body = Ok data ->
  py_get data "workflow_runs" (PList []) = Ok (PList runs) ->
  In item runs -> is_object item = false ->
  exists msg, score_ci w = Ok (0.0, [("error", PStr msg)]).
Proof.
  intros Ht Hnt Hr Hs Hg Hj Hw Hin Hitem.
  rewrite (score_ci_enters_try w token name owner repo Ht Hnt Hr Hs).
  open_ci_runs. rewrite Hg. cbn [bind]. rewrite Hj. cbn [bind]. rewrite Hw.
  cbn [bind py_len py_iter].
  assert (Htruthy : truthy (PList runs) = true)
    by (destruct runs; [destruct Hin | reflexivity]).
  rewrite Htruthy. cbn [negb].
  destruct (count_success_raises runs item Hin Hitem) as [e ->].
  cbn [bind]. eexists; reflexivity.
Qed.

(** *** combine *)

(** The loop of [combine] over a list of weights, from the total [a]:
    either every key is found and the total grows by the weighted values,
    or the first key that is not found raises [KeyError]. *)
Lemma combine_loop
      (scores : list (string * MetricResult)) (ws : list (string * Q)) (a : Q) :
  match fold_left
          (fun total kv =>
             t <- total ;;
             s <- getitem scores (fst kv) ;;
             Ok (t + snd kv * value s))
          ws (Ok a) with
  | Ok t =>
      t == a + fold_right
                 (fun kv acc => snd kv * value_at scores (fst kv) + acc) 0 ws
      /\ (forall k, In k (map fst ws) -> assoc k scores <> None)
  | Raise e =>
      exists k, In k (map fst ws) /\ assoc k scores = None /\ e = KeyError k
  end.
Proof.
  revert a. induction ws as [| [k wt] ws IH]; intros a;
    cbn [fold_left fold_right map fst snd bind In].
  - split; [lra | intros k []].
  - unfold getitem at 2, value_at at 1.
    destruct (assoc k scores) as [s |] eqn:Ek; cbn [bind].
    + specialize (IH (a + wt * value s)).
      match goal with |- match ?m with Ok _ => _ | Raise _ => _ end =>
        destruct m as [t | e] end.
      * destruct IH as [Ht Hall]. split; [rewrite Ht; lra |].
        intros k' [<- | Hk']; [congruence | now apply Hall].
      * destruct IH as (k' & Hin & Hk' & ->). exists k'. auto.
    + assert (E : forall l,
                 fold_left
                   (fun total kv =>
                      t <- total ;;
                      s <- getitem scores (fst kv) ;;
                      Ok (t + snd kv * value s))
                   l (Raise (KeyError k)) = Raise (KeyError k))
        by (induction l; [reflexivity | assumption]).
      rewrite E. exists k. auto.
Qed.

Lemma combine_spec (scores : list (string * MetricResult)) :
  match combine scores with
  | Ok t =>
      t == 100 * weighted_sum scores
      /\ (forall k, In k metric_names -> assoc k scores <> None)
  | Raise e =>
      exists k, In k metric_names /\ assoc k scores = None /\ e = KeyError k
  end.
Proof.
  unfold combine. pose proof (combine_loop scores WEIGHTS 0.0) as H.
  match type of H with match ?m with Ok _ => _ | Raise _ => _ end =>
    destruct m as [t | e] end; cbn [bind].
  - destruct H as [Ht Hall]. split; [| exact Hall].
    unfold weighted_sum. rewrite Ht. lra.
  - exact H.
Qed.

(** X14.  [combine] returns exactly when the table of results has an
    entry for each of the six metrics; otherwise it raises [KeyError],
    and it raises nothing else. *)
Theorem combine_needs_every_metric (scores : list (string * MetricResult)) :
  ((exists t, combine scores = Ok t)
   <-> forall k, In k metric_names -> assoc k scores <> None)
  /\ (forall e, combine scores = Raise e -> exn_type e = "KeyError").
Proof.
  pose proof (combine_spec scores) as H.
  destruct (combine scores) as [t | e].
  - destruct H as [_ Hall]. split; [| discriminate].
    split; [intros _; exact Hall | intros _; now exists t].
  - destruct H as (k & Hin & Hk & ->). split.
    + split; [intros [t Ht]; discriminate Ht |].
      intros Hall. exfalso. exact (Hall k Hin Hk).
    + intros e' E. injection E as <-. reflexivity.
Qed.

Lemma weighted_sum_expand (scores : list (string * MetricResult)) :
  weighted_sum scores
  == 0.15 * value_at scores "structure" + 0.25 * value_at scores "tests"
     + 0.10 * value_at scores "dead_code" + 0.20 * value_at scores "security"
     + 0.15 * value_at scores "docs" + 0.15 * value_at scores "ci".
Proof.
  unfold weighted_sum, WEIGHTS. cbn [fold_right fst snd]. lra.
Qed.

Lemma metric_names_cases (P : string -> Prop) :
  (forall k, In k metric_names -> P k) ->
  P "structure" /\ P "tests" /\ P "dead_code" /\ P "security"
  /\ P "docs" /\ P "ci".
Proof.
  intros H. repeat split; apply H; cbn; tauto.
Qed.

(** X15.  The final score is monotone: when both tables are complete and
    no metric has a smaller value in the second, the second score is not
    smaller. *)
Theorem combine_monotone
        (scores scores' : list (string * MetricResult)) (t t' : Q) :
  combine scores = Ok t ->
  combine scores' = Ok t' ->
  (forall k, In k metric_names -> value_at scores k <= value_at scores' k) ->
  t <= t'.
Proof.
  intros Ht Ht' Hle.
  pose proof (combine_spec scores) as H. rewrite Ht in H.
  pose proof (combine_spec scores') as H'. rewrite Ht' in H'.
  destruct H as [E _], H' as [E' _].
  rewrite E, E', !weighted_sum_expand.
  destruct (metric_names_cases _ Hle) as (H1 & H2 & H3 & H4 & H5 & H6).
  lra.
Qed.

(** X16.  When every metric has the same value [v], the final score is
    [100 × v]: the evidence and any further entries of the table play no
    part. *)
Theorem combine_uniform (scores : list (string * MetricResult)) (v : Q) :
  (forall k, In k metric_names ->
             exists r, assoc k scores = Some r /\ value r == v) ->
  exists t, combine scores = Ok t /\ t == 100 * v.
Proof.
  intros Hv.
  assert (Hat : forall k, In k metric_names ->
                          assoc k scores <> None /\ value_at scores k == v).
  { intros k Hk. destruct (Hv k Hk) as (r & Hr & Hrv).
    unfold value_at. rewrite Hr. split; [discriminate | exact Hrv]. }
  pose proof (combine_spec scores) as H.
  destruct (combine scores) as [t | e].
  - exists t. split; [reflexivity |]. destruct H as [E _].
    rewrite E, weighted_sum_expand.
    destruct (metric_names_cases _ Hat)
      as ([_ H1] & [_ H2] & [_ H3] & [_ H4] & [_ H5] & [_ H6]).
    rewrite H1, H2, H3, H4, H5, H6. lra.
  - destruct H as (k & Hin & Hk & _). destruct (Hat k Hin) as [Hne _].
    contradiction.
Qed.

(** *** The values that are returned *)

(** X18.  In every world the structure, dead-code and security collectors
    return a value in [[0,1]], and every result that the docs and CI
    collectors return has a value in [[0,1]]. *)
Theorem returned_values_in_unit (w : World) :
  in_unit (value (score_structure w))
  /\ in_unit (value (score_dead_code w))
  /\ in_unit (value (score_security w))
  /\ (forall r, score_docs w = Ok r -> in_unit (value r))
  /\ (forall r, score_ci w = Ok r -> in_unit (value r)).
Proof.
  split; [apply structure_in_unit |].
  split; [apply dead_code_in_unit |].
  split; [apply (security_in_unit json_loads) |].
  split; [apply docs_in_unit | apply (ci_in_unit json_loads)].
Qed.

End Behaviour.

(** ** Runs in which a claim of the specification fails *)

Lemma check_output_status (cmd : string) (c : completed) :
  returncode c <> 0%Z ->
  check_output cmd (Some c) = Raise (Exn "CalledProcessError" cmd).
Proof.
  intros H. unfold check_output.
  apply Z.eqb_neq in H. now rewrite H.
Qed.

(** Whatever a scanner prints, an exit status other than 0 leaves the
    penalty at 0 and the value at 1. *)
Lemma security_exit_status
      (json_loads : string -> Exc pyval) (w : World) (c : completed) :
  returncode c <> 0%Z ->
  evidence (score_security json_loads
              (with_bandit w (check_output "bandit" (Some c))))
  = [("penalty", PFloat 0.0)]
  /\ value (score_security json_loads
              (with_bandit w (check_output "bandit" (Some c)))) == 1.
Proof.
  intros H.
  apply (security_without_scanner json_loads _ (Exn "CalledProcessError" "bandit")).
  cbn [bandit with_bandit]. now apply check_output_status.
Qed.

(** Whatever a detector prints, an exit status other than 0 leaves the
    dead ratio at 0 and the value at 1. *)
Lemma dead_code_exit_status (w : World) (c : completed) :
  returncode c <> 0%Z ->
  evidence (score_dead_code
              (with_vulture w (check_output "vulture" (Some c))))
  = [("dead_ratio", PFloat 0)]
  /\ value (score_dead_code
              (with_vulture w (check_output "vulture" (Some c)))) == 1.
Proof.
  intros H. unfold score_dead_code, vulture_ratio, value, evidence.
  cbn [vulture with_vulture]. rewrite (check_output_status "vulture" c H).
  cbn [bind fst snd]. split; [reflexivity | lra].
Qed.

(** C2.  Not every collector returns a value in [[0,1]] in every world:
    with a source file that cannot be opened the docs collector raises
    and returns no value, and with a repository name that has no slash
    the CI collector raises and returns no value. *)
Theorem collectors_without_value :
  In "a.py" (py_files unreadable)
  /\ (exists e, score_docs unreadable = Raise e)
  /\ ~ (exists r, score_docs unreadable = Ok r /\ in_unit (value r))
  /\ REPO malformed_repo = Some "norepo"
  /\ (exists e, score_ci example_json malformed_repo = Raise e)
  /\ ~ (exists r, score_ci example_json malformed_repo = Ok r
                   /\ in_unit (value r)).
Proof.
  split; [cbn; tauto |].
  split; [eexists; reflexivity |].
  split; [intros (r & Hr & _); discriminate Hr |].
  split; [reflexivity |].
  split; [eexists; reflexivity |].
  intros (r & Hr & _). discriminate Hr.
Qed.

(** C3.  When the scanner reports two low findings and a high one it
    exits with status 1, so [check_output] raises before the report is
    read: the collector returns penalty 0 and value 1, not the penalty 6
    and the value 0.4 of the three findings. *)
Theorem security_findings_lost :
  example_json "bandit: low, low, high"
  = Ok (PDict [("results",
                PList [finding "LOW"; finding "LOW"; finding "HIGH"])])
  /\ severity_penalty [finding "LOW"; finding "LOW"; finding "HIGH"] == 6
  /\ (exists e, bandit scanner_found_three = Raise e)
  /\ evidence (score_security example_json scanner_found_three)
     = [("penalty", PFloat 0.0)]
  /\ value (score_security example_json scanner_found_three) == 1
  /\ ~ value (score_security example_json scanner_found_three) == 0.4.
Proof.
  split; [reflexivity |].
  split; [vm_compute; reflexivity |].
  split; [eexists; reflexivity |].
  destruct (security_exit_status example_json bare
              (Completed 1 "bandit: low, low, high")) as [He Hv];
    [discriminate |].
  split; [exact He |]. split; [exact Hv |].
  intros H. unfold scanner_found_three in H. rewrite Hv in H. discriminate H.
Qed.

(** C9.  When the detector flags two findings over twenty-five lines it
    exits with status 3, so [check_output] raises before the findings are
    counted: the collector returns dead ratio 0 and value 1, not the
    ratio [min(2 × 10 / 25, 1) = 0.8] and the value 0.2. *)
Theorem dead_code_findings_lost :
  flagged_lines vulture_report = 2%nat
  /\ total_lines detector_found_two = 25%nat
  /\ dead_ratio_spec 2 25 == 0.8
  /\ (exists e, vulture detector_found_two = Raise e)
  /\ evidence (score_dead_code detector_found_two)
     = [("dead_ratio", PFloat 0)]
  /\ value (score_dead_code detector_found_two) == 1
  /\ ~ value (score_dead_code detector_found_two)
        == 1 - dead_ratio_spec 2 25.
Proof.
  split; [reflexivity |]. split; [reflexivity |].
  assert (Hspec : dead_ratio_spec 2 25 == 0.8) by (vm_compute; reflexivity).
  split; [exact Hspec |].
  split; [eexists; reflexivity |].
  destruct (dead_code_exit_status
              (with_cwd bare [("a.py", File (Some twenty_five_lines))])
              (Completed 3 vulture_report)) as [He Hv]; [discriminate |].
  split; [exact He |]. split; [exact Hv |].
  intros H. unfold detector_found_two in H. rewrite Hv, Hspec in H.
  discriminate H.
Qed.


(** ** The further theorems at example worlds *)

Lemma structure_counts_artifacts_witness :
  present_count documented = 2%nat
  /\ value (score_structure documented) == 2 / 6
  /\ ~ value (score_structure documented) == 1.
Proof.
  destruct (structure_counts_artifacts documented) as (_ & Hv & Hall & _).
  split; [reflexivity |]. split; [exact Hv |].
  intros H. pose proof (proj1 Hall H "LICENSE") as Hl.
  discriminate Hl. cbn. tauto.
Defined.

Lemma tests_nothing_to_measure_witness :
  cov_files bare = ["coverage.xml"; "htmlcov/coverage.xml"]
  /\ tests_present bare = false
  /\ value (score_tests more_xml decimal_float bare) == 0
  /\ evidence (score_tests more_xml decimal_float bare)
     = [("coverage_pct", PFloat 0)].
Proof.
  split; [reflexivity |]. split; [reflexivity |].
  apply (tests_nothing_to_measure more_xml decimal_float bare).
  - repeat constructor; left; reflexivity.
  - reflexivity.
Defined.

Lemma tests_instrumentation_fails_witness :
  tests_present tests_without_tool = true
  /\ (exists e, coverage_run tests_without_tool = Raise e)
  /\ value (score_tests more_xml decimal_float tests_without_tool) == 0.
Proof.
  split; [reflexivity |]. split; [eexists; reflexivity |].
  apply (tests_instrumentation_fails more_xml decimal_float tests_without_tool).
  - repeat constructor; left; reflexivity.
  - reflexivity.
  - left. eexists. reflexivity.
Defined.

Lemma tests_instrumented_rate_witness :
  tests_present tests_with_tool = true
  /\ coverage_run tests_with_tool = Ok tt
  /\ value (score_tests more_xml decimal_float tests_with_tool) == 0.87
  /\ evidence (score_tests more_xml decimal_float tests_with_tool)
     = [("coverage_pct", PFloat 87)].
Proof.
  split; [reflexivity |]. split; [reflexivity |].
  destruct (tests_instrumented_rate
              more_xml decimal_float tests_with_tool
              "<coverage line-rate='0.87'/>"
              (Element "coverage" [("line-rate", "0.87")] [])
              (inject_Z 87 / inject_Z 100))
    as [Hv He]; try reflexivity.
  - repeat constructor; left; reflexivity.
  - split; [| exact He].
    rewrite Hv. vm_compute. reflexivity.
Defined.

Lemma tests_nested_rate_witness :
  path_exists nested_report "coverage.xml" = true
  /\ value (score_tests more_xml decimal_float nested_report) == 0.5
  /\ evidence (score_tests more_xml decimal_float nested_report)
     = [("coverage_pct", PFloat 50)].
Proof.
  split; [reflexivity |].
  destruct (tests_nested_rate
              more_xml decimal_float nested_report
              [] ["htmlcov/coverage.xml"] "coverage.xml" "0.5"
              (Element "report" []
                       [Element "coverage" [("line-rate", "0.5")] []])
              (Element "coverage" [("line-rate", "0.5")] [])
              (inject_Z 5 / inject_Z 10))
    as [Hv He]; try reflexivity.
  - constructor.
  - split; [| exact He]. rewrite Hv. vm_compute. reflexivity.
Defined.

Lemma tests_report_without_rate_witness :
  cov_files shadowed_report
  = ["custom.xml"; "coverage.xml"; "htmlcov/coverage.xml"]
  /\ report_pct more_xml decimal_float shadowed_report "coverage.xml"
     = Ok (Some (inject_Z 87 / inject_Z 100 * 100))
  /\ value (score_tests more_xml decimal_float shadowed_report) == 0
  /\ evidence (score_tests more_xml decimal_float shadowed_report)
     = [("coverage_pct", PFloat 0)].
Proof.
  split; [reflexivity |]. split; [reflexivity |].
  apply (tests_report_without_rate
           more_xml decimal_float shadowed_report
           [] ["coverage.xml"; "htmlcov/coverage.xml"] "custom.xml"
           (Element "report" [] [])); try reflexivity.
  - constructor.
  - intros cov H. discriminate H.
Defined.

Lemma flagged_lines_colon_witness :
  List.length (splitlines vulture_report) = 4%nat
  /\ flagged_lines vulture_report = 2%nat.
Proof.
  split; [reflexivity |].
  rewrite (flagged_lines_colon vulture_report). reflexivity.
Defined.

Lemma dead_code_endpoints_witness :
  (exists e, vulture detector_found_two = Raise e)
  /\ flagged_lines vulture_report = 2%nat
  /\ value (score_dead_code detector_found_two) == 1
  /\ total_lines saturated = 25%nat
  /\ value (score_dead_code saturated) == 0
  /\ value (score_dead_code (with_vulture saturated (Ok "all clear"))) == 1.
Proof.
  split; [eexists; reflexivity |]. split; [reflexivity |].
  split.
  { apply (proj1 (dead_code_endpoints detector_found_two)).
    left. eexists. reflexivity. }
  split; [reflexivity |]. split.
  - apply (proj2 (dead_code_endpoints saturated)).
    eexists. split; [reflexivity |]. vm_compute. lia.
  - apply (proj1 (dead_code_endpoints
                    (with_vulture saturated (Ok "all clear")))).
    right. eexists. split; reflexivity.
Defined.

Lemma security_penalty_prefix_witness :
  reported_findings more_json broken_finding
  = [finding "LOW"; PInt 42; finding "HIGH"]
  /\ exists penalty,
       evidence (score_security more_json broken_finding)
       = [("penalty", PFloat penalty)]
       /\ penalty == 0.5
       /\ value (score_security more_json broken_finding) == 0.95.
Proof.
  split; [reflexivity |].
  destruct (security_penalty_prefix more_json broken_finding)
    as (p & He & Hp & Hv).
  assert (Hhalf : p == 0.5) by (rewrite Hp; vm_compute; reflexivity).
  exists p. split; [exact He |]. split; [exact Hhalf |].
  rewrite Hv, Hhalf. vm_compute. reflexivity.
Defined.

Lemma docs_readme_unreadable_witness :
  path_exists readme_directory "README.md" = true
  /\ exists e, score_docs readme_directory = Raise e
               /\ (exn_type e = "IsADirectoryError"
                   \/ exn_type e = "PermissionError").
Proof.
  split; [reflexivity |].
  apply (docs_readme_unreadable readme_directory).
  left. eexists. reflexivity.
Defined.

Lemma docs_evidence_witness :
  exists r,
    score_docs documented = Ok r
    /\ evidence r
       = [("readme_sections",
           PDict [("installation", PBool true); ("usage", PBool false);
                  ("license", PBool true); ("contributing", PBool false)]);
          ("doc_ratio", PFloat (1 # 2))].
Proof.
  assert (E : exists r, score_docs documented = Ok r)
    by (eexists; reflexivity).
  destruct E as [r Hr]. exists r. split; [exact Hr |].
  destruct (docs_evidence documented r Hr)
    as (details & ratio & He & _ & Hd & _ & Hratio).
  rewrite He, (Hd _ eq_refl), Hratio by discriminate.
  reflexivity.
Defined.

Lemma ci_success_rate_witness :
  exists r,
    score_ci more_json thirty_runs = Ok r
    /\ value r == 0.9
    /\ evidence r = [("total_runs", PInt 30); ("success", PInt 27)].
Proof.
  pose proof (ci_success_rate
                more_json thirty_runs "secret" "octo/tool" "octo" "tool"
                "github: thirty runs"
                (PDict [("workflow_runs",
                         PList (repeat (PDict [("conclusion", PStr "success")]) 27
                                ++ repeat (PDict [("conclusion", PStr "failure")]) 3))])
                (repeat (PDict [("conclusion", PStr "success")]) 27
                 ++ repeat (PDict [("conclusion", PStr "failure")]) 3)
                eq_refl) as H.
  eexists. split.
  - apply H; try reflexivity; discriminate.
  - split; [vm_compute |]; reflexivity.
Defined.

Lemma ci_malformed_run_witness :
  exists msg,
    score_ci more_json broken_run = Ok (0.0, [("error", PStr msg)]).
Proof.
  apply (ci_malformed_run
           more_json broken_run "secret" "octo/tool" "octo" "tool"
           "github: broken run"
           (PDict [("workflow_runs",
                    PList [PDict [("conclusion", PStr "success")];
                           PStr "oops"])])
           (PStr "oops")
           [PDict [("conclusion", PStr "success")]; PStr "oops"]);
    try reflexivity; try discriminate.
  cbn. tauto.
Defined.

Lemma combine_needs_every_metric_witness :
  assoc "ci" five_scores = None
  /\ (exists e, combine five_scores = Raise e /\ exn_type e = "KeyError")
  /\ exists t, combine half_scores = Ok t.
Proof.
  split; [reflexivity |].
  destruct (combine_needs_every_metric five_scores) as [_ Hkey].
  destruct (combine_needs_every_metric half_scores) as [[_ Hall] _].
  split.
  - eexists. split; [reflexivity |]. apply (Hkey _ eq_refl).
  - apply Hall. intros k Hk. cbn [metric_names In] in Hk.
    repeat (destruct Hk as [<- | Hk]; [discriminate |]).
    destruct Hk.
Defined.

Lemma combine_monotone_witness :
  exists t t',
    combine half_scores = Ok t /\ combine better_scores = Ok t'
    /\ t == 61.5 /\ t' == 77.75 /\ t <= t'.
Proof.
  assert (E : exists t, combine half_scores = Ok t) by (eexists; reflexivity).
  assert (E' : exists t, combine better_scores = Ok t) by (eexists; reflexivity).
  destruct E as [t Ht], E' as [t' Ht']. exists t, t'.
  split; [exact Ht |]. split; [exact Ht' |].
  split; [apply Ok_inj in Ht; subst t; vm_compute; reflexivity |].
  split; [apply Ok_inj in Ht'; subst t'; vm_compute; reflexivity |].
  apply (combine_monotone half_scores better_scores t t' Ht Ht').
  intros k Hk. cbn [metric_names In] in Hk.
  repeat (destruct Hk as [<- | Hk]; [vm_compute; discriminate |]).
  destruct Hk.
Defined.

Lemma combine_uniform_witness :
  exists t, combine even_scores = Ok t /\ t == 25.
Proof.
  destruct (combine_uniform even_scores 0.25) as (t & Ht & Hv).
  - intros k Hk. cbn [metric_names In] in Hk.
    repeat (destruct Hk as [<- | Hk];
            [eexists; split; [reflexivity | reflexivity] |]).
    destruct Hk.
  - exists t. split; [exact Ht |]. rewrite Hv. reflexivity.
Defined.

Lemma returned_values_in_unit_witness :
  exists docs ci,
    score_docs documented = Ok docs
    /\ score_ci more_json thirty_runs = Ok ci
    /\ in_unit (value docs) /\ in_unit (value ci)
    /\ in_unit (value (score_security more_json broken_finding)).
Proof.
  assert (Ed : exists r, score_docs documented = Ok r)
    by (eexists; reflexivity).
  assert (Ec : exists r, score_ci more_json thirty_runs = Ok r).
  { exists (of_nat 27 / of_nat 30,
            [("total_runs", PInt 30); ("success", PInt 27)]).
    vm_compute. reflexivity. }
  destruct Ed as [docs Hd], Ec as [ci Hc]. exists docs, ci.
  split; [exact Hd |]. split; [exact Hc |].
  destruct (returned_values_in_unit more_json documented)
    as (_ & _ & _ & Hdocs & _).
  destruct (returned_values_in_unit more_json thirty_runs)
    as (_ & _ & _ & _ & Hci).
  destruct (returned_values_in_unit more_json broken_finding)
    as (_ & _ & Hsec & _).
  split; [exact (Hdocs docs Hd) |]. split; [exact (Hci ci Hc) | exact Hsec].
Defined.
